(** * Ryze NRTax backend: accounts, premium-gated content, consultations

    A shallow embedding of the FastAPI/SQLAlchemy backend
    ([app/models/models.py], [app/schemas/schemas.py], [app/crud/crud.py],
    [app/routers/*.py], [app/main.py]) and the properties of its
    access-control logic.

    The relational store is a record of tables, each table a list of rows in
    insertion order.  A query without [filter] reads the whole table,
    [.filter(p)] keeps the rows satisfying [p], [.first()] is the head of
    the result ([None] when it is empty), [.all()] the whole result and
    [.offset(skip).limit(limit)] a window of it.  Only rows of [users] are
    ever updated, and [users] is read by key only, so the order of a scan
    matters for the three tables whose rows never change.  Writes are
    computations in a state-and-exception monad over the store: an
    exception leaves the rows as the last commit left them; a sequence
    value that a rejected INSERT drew stays drawn. *)

From Stdlib Require Import ZArith List String Bool Lia.
Import ListNotations.
Local Open Scope string_scope.
Local Open Scope Z_scope.

(* ================================================================== *)
(** ** app/models/models.py *)

Module User.
Record t : Type := mk {
  id : Z;
  email : string;
  hashed_password : string;
  is_active : bool;
  is_premium : bool;
  created_at : Z
}.

Definition with_is_premium (value : bool) (u : t) : t :=
  mk (id u) (email u) (hashed_password u) (is_active u) value (created_at u).
End User.

Module TaxGuide.
Record t : Type := mk {
  id : Z;
  title : string;
  content : string;
  is_premium : bool;
  created_at : Z;
  updated_at : option Z
}.
End TaxGuide.

Module Consultation.
Record t : Type := mk {
  id : Z;
  user_id : Z;
  subject : string;
  message : string;
  status : string;
  created_at : Z
}.
End Consultation.

Module FAQ.
Record t : Type := mk {
  id : Z;
  question : string;
  answer : string;
  category : string;
  is_premium : bool
}.
End FAQ.

(* ================================================================== *)
(** ** app/schemas/schemas.py: the request bodies *)

Module schemas.
Module UserCreate.
Record t : Type := mk {
  email : string;
  password : string
}.
End UserCreate.

Module TaxGuideCreate.
Record t : Type := mk {
  title : string;
  content : string;
  is_premium : bool
}.
End TaxGuideCreate.

Module ConsultationCreate.
Record t : Type := mk {
  subject : string;
  message : string
}.
End ConsultationCreate.

Module FAQCreate.
Record t : Type := mk {
  question : string;
  answer : string;
  category : string;
  is_premium : bool
}.
End FAQCreate.
End schemas.

(* ================================================================== *)
(** ** The store behind [db: Session]

    One list per [__tablename__], and one counter per integer primary key
    (the next value the column's sequence hands out). *)

Record Session : Type := mkSession {
  users : list User.t;
  tax_guides : list TaxGuide.t;
  consultations : list Consultation.t;
  faqs : list FAQ.t;
  users_id_seq : Z;
  tax_guides_id_seq : Z;
  consultations_id_seq : Z;
  faqs_id_seq : Z
}.

(** The store right after [Base.metadata.create_all]. *)
Definition empty_db : Session := mkSession [] [] [] [] 1 1 1 1.

Definition insert_user (row : User.t) (db : Session) : Session :=
  mkSession (users db ++ [row])%list (tax_guides db) (consultations db) (faqs db)
            (users_id_seq db + 1) (tax_guides_id_seq db)
            (consultations_id_seq db) (faqs_id_seq db).

Definition insert_tax_guide (row : TaxGuide.t) (db : Session) : Session :=
  mkSession (users db) (tax_guides db ++ [row])%list (consultations db) (faqs db)
            (users_id_seq db) (tax_guides_id_seq db + 1)
            (consultations_id_seq db) (faqs_id_seq db).

Definition insert_consultation (row : Consultation.t) (db : Session) : Session :=
  mkSession (users db) (tax_guides db) (consultations db ++ [row])%list (faqs db)
            (users_id_seq db) (tax_guides_id_seq db)
            (consultations_id_seq db + 1) (faqs_id_seq db).

Definition insert_faq (row : FAQ.t) (db : Session) : Session :=
  mkSession (users db) (tax_guides db) (consultations db) (faqs db ++ [row])%list
            (users_id_seq db) (tax_guides_id_seq db)
            (consultations_id_seq db) (faqs_id_seq db + 1).

(** [UPDATE users SET ... WHERE users.id = pk]. *)
Definition update_users_where_id (pk : Z) (f : User.t -> User.t) (db : Session)
  : Session :=
  mkSession (map (fun u => if User.id u =? pk then f u else u) (users db))
            (tax_guides db) (consultations db) (faqs db)
            (users_id_seq db) (tax_guides_id_seq db)
            (consultations_id_seq db) (faqs_id_seq db).

(* ================================================================== *)
(** ** Exceptions and the monad of the write paths *)

Inductive Exception : Type :=
| HTTPException (status_code : Z) (detail : string)
| AttributeError   (* attribute access on [None] *)
| IntegrityError   (* a unique or foreign-key constraint rejects the row *)
| DataError        (* OFFSET or LIMIT is negative or no 64-bit integer *)
| ValueError.      (* the driver refuses a string that contains NUL *)

Inductive result (A : Type) : Type :=
| Return (a : A)
| Raise (e : Exception).
Arguments Return {A} a.
Arguments Raise {A} e.

Definition M (A : Type) : Type := Session -> result A * Session.

Definition ret {A} (a : A) : M A := fun db => (Return a, db).
Definition raise {A} (e : Exception) : M A := fun db => (Raise e, db).
Definition bind {A B} (m : M A) (k : A -> M B) : M B :=
  fun db => match m db with
            | (Return a, db') => k a db'
            | (Raise e, db') => (Raise e, db')
            end.
Definition query {A} (q : Session -> A) : M A := fun db => (Return (q db), db).
Definition commit (w : Session -> Session) : M unit := fun db => (Return tt, w db).

Declare Scope db_scope.
Delimit Scope db_scope with db.
Notation "x <- m ;; k" := (bind m (fun x => k))
  (at level 61, m at next level, right associativity) : db_scope.
Notation "m ;;; k" := (bind m (fun _ => k))
  (at level 61, right associativity) : db_scope.

(** The store a computation leaves behind, and what it hands back. *)
Definition exec {A} (m : M A) (db : Session) : Session := snd (m db).
Definition eval {A} (m : M A) (db : Session) : result A := fst (m db).

(** OFFSET and LIMIT are 64-bit integers of the store. *)
Definition bigint_bound : Z := 2 ^ 63.

(** [query.offset(skip).limit(limit).all()].  The store rejects an OFFSET or
    LIMIT that is negative or does not fit a bigint. *)
Definition offset_limit {A} (skip limit : Z) (rows : list A) : result (list A) :=
  if (skip <? 0) || (limit <? 0)
     || (bigint_bound <=? skip) || (bigint_bound <=? limit)
  then Raise DataError
  else Return (firstn (Z.to_nat limit) (skipn (Z.to_nat skip) rows)).

(** The string carries a NUL character, which the driver cannot send. *)
Fixpoint has_nul (s : string) : bool :=
  match s with
  | EmptyString => false
  | String c rest => Ascii.eqb c Ascii.zero || has_nul rest
  end.

(** A rejected INSERT has already drawn its key from the sequence. *)
Definition draw_users_id (db : Session) : Session :=
  mkSession (users db) (tax_guides db) (consultations db) (faqs db)
            (users_id_seq db + 1) (tax_guides_id_seq db)
            (consultations_id_seq db) (faqs_id_seq db).

Definition draw_consultations_id (db : Session) : Session :=
  mkSession (users db) (tax_guides db) (consultations db) (faqs db)
            (users_id_seq db) (tax_guides_id_seq db)
            (consultations_id_seq db + 1) (faqs_id_seq db).

(** Flushing a pending row ([db.add], [db.commit], [db.refresh]): the
    primary key comes from the table's sequence and every column the
    constructor call left out takes its declared [default] /
    [server_default] ([now] is the store's clock reading).  The driver
    refuses a string with a NUL before anything reaches the store; the store
    checks [unique=True] and [ForeignKey] after the key has been drawn.  The
    strings of a user row are a validated [EmailStr] and a password hash,
    neither of which carries a NUL. *)

Definition add_user (email hashed_password : string) (now : Z) : M User.t :=
  fun db =>
    let row := User.mk (users_id_seq db) email hashed_password true false now in
    if existsb (fun u => String.eqb (User.email u) email) (users db)
    then (Raise IntegrityError, draw_users_id db)     (* email: unique=True *)
    else (Return row, insert_user row db).

Definition add_tax_guide (title content : string) (is_premium : bool) (now : Z)
  : M TaxGuide.t :=
  fun db =>
    let row := TaxGuide.mk (tax_guides_id_seq db) title content is_premium now None in
    if has_nul title || has_nul content
    then (Raise ValueError, db)
    else (Return row, insert_tax_guide row db).

Definition add_consultation (user_id : Z) (subject message : string) (now : Z)
  : M Consultation.t :=
  fun db =>
    let row := Consultation.mk (consultations_id_seq db) user_id subject message
                               "pending" now in
    if has_nul subject || has_nul message
    then (Raise ValueError, db)
    else if existsb (fun u => User.id u =? user_id) (users db)
    then (Return row, insert_consultation row db)
    else (Raise IntegrityError, draw_consultations_id db).
                                            (* user_id: ForeignKey("users.id") *)

Definition add_faq (question answer category : string) (is_premium : bool)
  : M FAQ.t :=
  fun db =>
    let row := FAQ.mk (faqs_id_seq db) question answer category is_premium in
    if has_nul question || has_nul answer || has_nul category
    then (Raise ValueError, db)
    else (Return row, insert_faq row db).

Local Open Scope db_scope.

(* ================================================================== *)
(** ** app/crud/crud.py *)

Module crud.

(** *** User CRUD operations *)

Definition get_user (db : Session) (user_id : Z) : option User.t :=
  find (fun u => User.id u =? user_id) (users db).

Definition get_user_by_email (db : Session) (email : string) : option User.t :=
  find (fun u => String.eqb (User.email u) email) (users db).

Section Hashing.
(** [app.core.auth.get_password_hash], the opaque one-way function. *)
Variable get_password_hash : string -> string.

Definition create_user (user : schemas.UserCreate.t) (now : Z) : M User.t :=
  let hashed_password :=
    get_password_hash (schemas.UserCreate.password user) in
  db_user <- add_user (schemas.UserCreate.email user) hashed_password now ;;
  ret db_user.
End Hashing.

Definition update_user_premium (email : string) (is_premium : bool) : M User.t :=
  found <- query (fun db => get_user_by_email db email) ;;
  match found with
  | None => raise AttributeError
  | Some db_user =>
      commit (update_users_where_id (User.id db_user)
                                    (User.with_is_premium is_premium)) ;;;
      ret (User.with_is_premium is_premium db_user)
  end.

(** *** TaxGuide CRUD operations *)

Definition get_tax_guides (db : Session) (skip limit : Z) (premium_only : bool)
  : result (list TaxGuide.t) :=
  let query := tax_guides db in
  let query := if premium_only
               then filter (fun g => Bool.eqb (TaxGuide.is_premium g) true) query
               else query in
  offset_limit skip limit query.

Definition get_tax_guide (db : Session) (guide_id : Z) : option TaxGuide.t :=
  find (fun g => TaxGuide.id g =? guide_id) (tax_guides db).

Definition create_tax_guide (guide : schemas.TaxGuideCreate.t) (now : Z)
  : M TaxGuide.t :=
  db_guide <- add_tax_guide (schemas.TaxGuideCreate.title guide)
                            (schemas.TaxGuideCreate.content guide)
                            (schemas.TaxGuideCreate.is_premium guide) now ;;
  ret db_guide.

(** *** Consultation CRUD operations *)

Definition create_consultation (consultation : schemas.ConsultationCreate.t)
           (user_id : Z) (now : Z) : M Consultation.t :=
  db_consultation <-
    add_consultation user_id
                     (schemas.ConsultationCreate.subject consultation)
                     (schemas.ConsultationCreate.message consultation) now ;;
  ret db_consultation.

Definition get_user_consultations (db : Session) (user_id : Z)
  : list Consultation.t :=
  filter (fun c => Consultation.user_id c =? user_id) (consultations db).

(** *** FAQ CRUD operations *)

Definition get_faqs (db : Session) (skip limit : Z) (premium_only : bool)
  : result (list FAQ.t) :=
  let query := faqs db in
  let query := if premium_only
               then filter (fun q => Bool.eqb (FAQ.is_premium q) true) query
               else query in
  offset_limit skip limit query.

Definition get_faq_by_category (db : Session) (category : string) : list FAQ.t :=
  filter (fun q => String.eqb (FAQ.category q) category) (faqs db).

Definition create_faq (faq : schemas.FAQCreate.t) : M FAQ.t :=
  db_faq <- add_faq (schemas.FAQCreate.question faq)
                    (schemas.FAQCreate.answer faq)
                    (schemas.FAQCreate.category faq)
                    (schemas.FAQCreate.is_premium faq) ;;
  ret db_faq.

End crud.

(* ================================================================== *)
(** ** app/routers *)

Module routers.

(** *** app/routers/users.py *)
Module users.
Section Hashing.
Variable get_password_hash : string -> string.

Definition create_user (user : schemas.UserCreate.t) (now : Z) : M User.t :=
  db_user <- query (fun db =>
               crud.get_user_by_email db (schemas.UserCreate.email user)) ;;
  match db_user with
  | Some _ => raise (HTTPException 400 "Email already registered")
  | None => crud.create_user get_password_hash user now
  end.
End Hashing.

Definition read_users_me (current_user : User.t) : User.t := current_user.

Definition upgrade_to_premium (current_user : User.t) : M User.t :=
  crud.update_user_premium (User.email current_user) true.
End users.

(** *** app/routers/tax_guides.py *)
Module tax_guides.
Definition read_tax_guides (skip limit : Z) (db : Session)
           (current_user : option User.t) : result (list TaxGuide.t) :=
  let premium_only := false in
  let premium_only :=
    match current_user with
    | Some u => if User.is_premium u then true else premium_only
    | None => premium_only
    end in
  crud.get_tax_guides db skip limit premium_only.

Definition read_tax_guide (guide_id : Z) (db : Session)
           (current_user : option User.t) : result TaxGuide.t :=
  match crud.get_tax_guide db guide_id with
  | None => Raise (HTTPException 404 "Tax guide not found")
  | Some db_guide =>
      if TaxGuide.is_premium db_guide
         && match current_user with
            | None => true
            | Some u => negb (User.is_premium u)
            end
      then Raise (HTTPException 403 "Premium content requires subscription")
      else Return db_guide
  end.

Definition create_tax_guide (guide : schemas.TaxGuideCreate.t) (now : Z)
  : M TaxGuide.t :=
  crud.create_tax_guide guide now.
End tax_guides.

(** *** app/routers/faqs.py *)
Module faqs.
Definition read_faqs (skip limit : Z) (db : Session)
           (current_user : option User.t) : result (list FAQ.t) :=
  let premium_only := false in
  let premium_only :=
    match current_user with
    | Some u => if User.is_premium u then true else premium_only
    | None => premium_only
    end in
  crud.get_faqs db skip limit premium_only.

Definition read_faq_by_category (category : string) (db : Session)
  : list FAQ.t :=
  crud.get_faq_by_category db category.

Definition create_faq (faq : schemas.FAQCreate.t) : M FAQ.t :=
  crud.create_faq faq.
End faqs.

(** *** app/routers/consultations.py *)
Module consultations.
Definition create_consultation (consultation : schemas.ConsultationCreate.t)
           (current_user : User.t) (now : Z) : M Consultation.t :=
  crud.create_consultation consultation (User.id current_user) now.

Definition read_user_consultations (db : Session) (current_user : User.t)
  : list Consultation.t :=
  crud.get_user_consultations db (User.id current_user).
End consultations.

End routers.

(** The defaults of the list endpoints' query parameters. *)
Definition default_skip : Z := 0.
Definition default_limit : Z := 100.

(* ================================================================== *)
(** ** app/main.py: the sample data of [startup_event] *)

Module main.

Definition startup_event (now : Z) : M unit :=
  tax_guides <- query tax_guides ;;
  match tax_guides with
  | _ :: _ => ret tt
  | [] =>
      add_tax_guide
        "US-China Tax Treaty Overview"
        "The United States and China have established a tax treaty to avoid double taxation..."
        false now ;;;
      add_tax_guide
        "Form 1040-NR Guide for International Students"
        "As an international student, you'll likely need to file Form 1040-NR..."
        false now ;;;
      add_tax_guide
        "Scholarship Taxation for Non-Residents"
        "Scholarships and fellowships granted to non-residents may be subject to different tax rules..."
        false now ;;;
      add_tax_guide
        "Advanced Tax Planning for Non-Residents"
        "This premium guide covers advanced tax planning strategies..."
        true now ;;;
      add_faq
        "Do I need to file a US tax return as an international student?"
        "Yes, most international students will need to file at least one tax form, even if they didn't earn income..."
        "Filing Requirements" false ;;;
      add_faq
        "What is Form 8843?"
        "Form 8843 is a statement for exempt individuals with a medical condition or students..."
        "Forms" false ;;;
      add_faq
        "How does the US-China tax treaty affect my taxes?"
        "The US-China tax treaty may provide exemptions or reduced rates for certain types of income..."
        "Tax Treaties" false ;;;
      add_faq
        "What tax deductions can international students claim?"
        "As a non-resident, you may be eligible for certain deductions..."
        "Deductions" true ;;;
      ret tt
  end.

(** The store of a fresh deployment once the application has started. *)
Definition sample_db (now : Z) : Session := exec (startup_event now) empty_db.

End main.

(* ================================================================== *)
(** ** Vocabulary of the specification *)

(** The caller's resolved identity is absent or lacks [is_premium = true]. *)
Definition lacks_premium (current_user : option User.t) : Prop :=
  current_user = None
  \/ exists u, current_user = Some u /\ User.is_premium u = false.

(** The caller's identity is present and has [is_premium = true]. *)
Definition has_premium (current_user : option User.t) : Prop :=
  exists u, current_user = Some u /\ User.is_premium u = true.

Definition not_found : Exception := HTTPException 404 "Tax guide not found".
Definition forbidden : Exception :=
  HTTPException 403 "Premium content requires subscription".
Definition conflict : Exception := HTTPException 400 "Email already registered".

(** The row a registration persists: key from the sequence, email and hashed
    password from the request, flags and timestamp from the column defaults. *)
Definition new_user_row (get_password_hash : string -> string) (db : Session)
           (user : schemas.UserCreate.t) (now : Z) : User.t :=
  User.mk (users_id_seq db) (schemas.UserCreate.email user)
          (get_password_hash (schemas.UserCreate.password user))
          true false now.

(** A stand-in for the password hash, used to run the model on examples. *)
Definition fixture_hash (raw : string) : string := String.append "$2b$12$" raw.

(** The scenario of the specification: on the seeded store, "a@x.com"
    registers at clock reading 1. *)
Definition alice : schemas.UserCreate.t :=
  schemas.UserCreate.mk "a@x.com" "correct horse battery".

Definition alice_row : User.t :=
  User.mk 1 "a@x.com" (fixture_hash "correct horse battery") true false 1.

Definition registered_db : Session :=
  exec (routers.users.create_user fixture_hash alice 1) (main.sample_db 0).

Definition premium_guide : TaxGuide.t :=
  TaxGuide.mk 4 "Advanced Tax Planning for Non-Residents"
              "This premium guide covers advanced tax planning strategies..."
              true 0 None.

(** What the schema promises of a table with an integer primary key: the
    keys are pairwise distinct and all below the next value of the sequence. *)
Definition keyed {A : Type} (key : A -> Z) (seq : Z) (rows : list A) : Prop :=
  NoDup (map key rows) /\ Forall (fun r => key r < seq) rows.

(** A store as the declared constraints leave it: primary keys on the four
    tables, and [unique=True] on [users.email]. *)
Record consistent (db : Session) : Prop := mkConsistent {
  users_keyed : keyed User.id (users_id_seq db) (users db);
  users_email_unique : NoDup (map User.email (users db));
  tax_guides_keyed : keyed TaxGuide.id (tax_guides_id_seq db) (tax_guides db);
  consultations_keyed :
    keyed Consultation.id (consultations_id_seq db) (consultations db);
  faqs_keyed : keyed FAQ.id (faqs_id_seq db) (faqs db)
}.

(** [ForeignKey("users.id")]: every consultation belongs to a stored user. *)
Definition owners_exist (db : Session) : Prop :=
  Forall (fun c => In (Consultation.user_id c) (map User.id (users db)))
         (consultations db).

(** A computation keeps a property of the store, however it ends. *)
Definition preserves {A : Type} (P : Session -> Prop) (m : M A) : Prop :=
  forall db, P db -> P (exec m db).

(** The requests that write to the store: the POST routes that
    [app/main.py] mounts, and its startup hook. *)
Inductive Request : Type :=
| PostUsers (user : schemas.UserCreate.t) (now : Z)
| PostUsersMePremium (current_user : User.t)
| PostTaxGuides (guide : schemas.TaxGuideCreate.t) (now : Z)
| PostFaqs (faq : schemas.FAQCreate.t)
| PostConsultations (consultation : schemas.ConsultationCreate.t)
                    (current_user : User.t) (now : Z)
| Startup (now : Z).

(** The store after a request has been handled, whether its handler
    returned or raised. *)
Definition serve (get_password_hash : string -> string) (request : Request)
           (db : Session) : Session :=
  match request with
  | PostUsers user now =>
      exec (routers.users.create_user get_password_hash user now) db
  | PostUsersMePremium current_user =>
      exec (routers.users.upgrade_to_premium current_user) db
  | PostTaxGuides guide now =>
      exec (routers.tax_guides.create_tax_guide guide now) db
  | PostFaqs faq => exec (routers.faqs.create_faq faq) db
  | PostConsultations consultation current_user now =>
      exec (routers.consultations.create_consultation
              consultation current_user now) db
  | Startup now => exec (main.startup_event now) db
  end.

Definition serve_all (get_password_hash : string -> string)
           (requests : list Request) (db : Session) : Session :=
  fold_left (fun db request => serve get_password_hash request db) requests db.

(* ================================================================== *)
(** ** Queries over tables *)

Section Tables.
Context {A : Type}.
Implicit Types (p : A -> bool) (rows : list A).

Lemma first_none_iff p rows :
  find p rows = None <-> forall x, In x rows -> p x = false.
Proof.
  split.
  - apply find_none.
  - induction rows as [|r rows IH]; intros H; simpl; [reflexivity|].
    rewrite (H r (or_introl eq_refl)). apply IH.
    intros x Hx. apply H. now right.
Qed.

Lemma first_none_existsb p rows :
  find p rows = None -> existsb p rows = false.
Proof.
  induction rows as [|r rows IH]; simpl; [reflexivity|].
  destruct (p r); [discriminate|]. exact IH.
Qed.

Lemma first_after_insert p rows row :
  find p rows = None -> p row = true -> find p (rows ++ [row]) = Some row.
Proof.
  induction rows as [|r rows IH]; simpl; intros Hnone Hrow.
  - now rewrite Hrow.
  - destruct (p r); [discriminate|]. now apply IH.
Qed.

Lemma first_after_update p (f : A -> A) rows :
  (forall x, p (f x) = p x) ->
  find p (map f rows) = option_map f (find p rows).
Proof.
  intros Hp. induction rows as [|r rows IH]; simpl; [reflexivity|].
  rewrite Hp. destruct (p r); [reflexivity|exact IH].
Qed.

Lemma update_twice (c : A -> bool) (w : A -> A) rows :
  (forall x, c (w x) = c x) -> (forall x, w (w x) = w x) ->
  map (fun x => if c x then w x else x)
      (map (fun x => if c x then w x else x) rows)
  = map (fun x => if c x then w x else x) rows.
Proof.
  intros Hc Hw. rewrite map_map. apply map_ext. intros x.
  destruct (c x) eqn:E.
  - now rewrite Hc, E, Hw.
  - now rewrite E.
Qed.
End Tables.

Lemma lacks_or_has_premium current_user :
  lacks_premium current_user \/ has_premium current_user.
Proof.
  destruct current_user as [u|]; [|left; now left].
  destruct (User.is_premium u) eqn:E.
  - right. now exists u.
  - left. right. now exists u.
Qed.

Lemma lacks_not_has_premium current_user :
  lacks_premium current_user -> ~ has_premium current_user.
Proof.
  intros [->|(u & -> & Hu)] (v & Hv & Hp); [discriminate|].
  injection Hv as <-. congruence.
Qed.

(* ================================================================== *)
(** ** GET /tax-guides/{guide_id} *)

Lemma get_tax_guide_some db guide_id g :
  crud.get_tax_guide db guide_id = Some g ->
  In g (tax_guides db) /\ TaxGuide.id g = guide_id.
Proof.
  unfold crud.get_tax_guide. intros H. apply find_some in H as [Hin Hid].
  split; [exact Hin|]. now apply Z.eqb_eq.
Qed.

Lemma get_tax_guide_none db guide_id :
  crud.get_tax_guide db guide_id = None <->
  ~ exists g, In g (tax_guides db) /\ TaxGuide.id g = guide_id.
Proof.
  unfold crud.get_tax_guide. rewrite first_none_iff. split.
  - intros H (g & Hin & Hid). specialize (H g Hin). apply Z.eqb_neq in H. auto.
  - intros H g Hin. apply Z.eqb_neq. intros Hid. apply H. now exists g.
Qed.

Lemma read_tax_guide_found guide_id db current_user g :
  crud.get_tax_guide db guide_id = Some g ->
  routers.tax_guides.read_tax_guide guide_id db current_user =
    if TaxGuide.is_premium g
       && match current_user with
          | None => true
          | Some u => negb (User.is_premium u)
          end
    then Raise forbidden else Return g.
Proof. unfold routers.tax_guides.read_tax_guide. now intros ->. Qed.

Lemma read_tax_guide_denied guide_id db current_user g :
  crud.get_tax_guide db guide_id = Some g ->
  TaxGuide.is_premium g = true -> lacks_premium current_user ->
  routers.tax_guides.read_tax_guide guide_id db current_user = Raise forbidden.
Proof.
  intros Hg Hp Hl. rewrite (read_tax_guide_found _ _ _ _ Hg), Hp.
  destruct Hl as [->|(u & -> & Hu)]; [reflexivity|]. now rewrite Hu.
Qed.

Lemma read_tax_guide_granted guide_id db current_user g :
  crud.get_tax_guide db guide_id = Some g ->
  TaxGuide.is_premium g = false \/ has_premium current_user ->
  routers.tax_guides.read_tax_guide guide_id db current_user = Return g.
Proof.
  intros Hg H. rewrite (read_tax_guide_found _ _ _ _ Hg).
  destruct H as [->|(u & -> & Hu)]; [reflexivity|].
  rewrite Hu. now rewrite andb_false_r.
Qed.

(** C3.  [read_tax_guide] raises 404 exactly when the table holds no guide
    with the requested id; it raises 403, a different error, exactly when
    the guide exists, is premium, and the caller's identity is absent or not
    premium; in every other case it returns the stored guide unchanged. *)
Theorem read_tax_guide_outcomes guide_id db current_user :
  (routers.tax_guides.read_tax_guide guide_id db current_user = Raise not_found
   <-> ~ exists g, In g (tax_guides db) /\ TaxGuide.id g = guide_id)
  /\ (routers.tax_guides.read_tax_guide guide_id db current_user = Raise forbidden
      <-> exists g, In g (tax_guides db) /\ TaxGuide.id g = guide_id
                    /\ crud.get_tax_guide db guide_id = Some g
                    /\ TaxGuide.is_premium g = true
                    /\ lacks_premium current_user)
  /\ (forall g, routers.tax_guides.read_tax_guide guide_id db current_user = Return g
      <-> crud.get_tax_guide db guide_id = Some g
          /\ (TaxGuide.is_premium g = false \/ has_premium current_user))
  /\ (forall e, routers.tax_guides.read_tax_guide guide_id db current_user = Raise e
      -> e = not_found \/ e = forbidden)
  /\ forbidden <> not_found.
Proof.
  rewrite <- get_tax_guide_none.
  destruct (crud.get_tax_guide db guide_id) as [g|] eqn:Hg.
  - pose proof (get_tax_guide_some _ _ _ Hg) as [Hin Hid].
    assert (Hcases : (TaxGuide.is_premium g = true /\ lacks_premium current_user)
                     \/ (TaxGuide.is_premium g = false \/ has_premium current_user)).
    { destruct (TaxGuide.is_premium g); [|now right; left].
      destruct (lacks_or_has_premium current_user); [left|right]; auto. }
    destruct Hcases as [[Hp Hl]|Hgrant].
    + rewrite (read_tax_guide_denied _ _ _ _ Hg Hp Hl).
      split; [split; discriminate|].
      split; [split; [intros _; exists g; auto 10|reflexivity]|].
      split; [intros g'; split; [discriminate|]|].
      { intros [[= <-] [Hf|Hh]]; [congruence|].
        now apply lacks_not_has_premium in Hl. }
      split; [intros e [= <-]; now right|discriminate].
    + rewrite (read_tax_guide_granted _ _ _ _ Hg Hgrant).
      split; [split; discriminate|].
      split; [split; [discriminate|]|].
      { intros (g' & _ & _ & [= <-] & Hp & Hl).
        destruct Hgrant as [Hf|Hh]; [congruence|].
        now apply lacks_not_has_premium in Hl. }
      split; [intros g'; split; [intros [= <-]; auto|intros [[= <-] _]; reflexivity]|].
      split; [discriminate|discriminate].
  - unfold routers.tax_guides.read_tax_guide. rewrite Hg.
    split; [split; reflexivity|].
    split; [split; [discriminate|intros (g & _ & _ & Hg' & _); discriminate]|].
    split; [intros g; split; [discriminate|intros [Hg' _]; discriminate]|].
    split; [intros e [= <-]; now left|discriminate].
Qed.

(* ================================================================== *)
(** ** POST /users/: registration *)

Lemma get_user_by_email_some db email u :
  crud.get_user_by_email db email = Some u ->
  In u (users db) /\ User.email u = email.
Proof.
  unfold crud.get_user_by_email. intros H. apply find_some in H as [Hin He].
  split; [exact Hin|]. now apply String.eqb_eq.
Qed.

Lemma email_taken_iff db email :
  existsb (fun u => String.eqb (User.email u) email) (users db) = false
  <-> crud.get_user_by_email db email = None.
Proof.
  unfold crud.get_user_by_email. split; [|apply first_none_existsb].
  intros H. apply first_none_iff. intros x Hx.
  destruct (String.eqb (User.email x) email) eqn:E; [|reflexivity].
  assert (existsb (fun u => String.eqb (User.email u) email) (users db) = true)
    by (apply existsb_exists; eauto).
  congruence.
Qed.

Lemma get_user_by_email_inserted db row :
  crud.get_user_by_email db (User.email row) = None ->
  crud.get_user_by_email (insert_user row db) (User.email row) = Some row.
Proof.
  unfold crud.get_user_by_email. intros H. simpl.
  apply first_after_insert; [exact H|apply String.eqb_refl].
Qed.

Section Registration.
Variable get_password_hash : string -> string.

Local Abbreviation registered_row := (new_user_row get_password_hash).

Lemma crud_create_user_fresh db user now :
  crud.get_user_by_email db (schemas.UserCreate.email user) = None ->
  crud.create_user get_password_hash user now db
  = (Return (registered_row db user now),
     insert_user (registered_row db user now) db).
Proof.
  intros H. apply email_taken_iff in H.
  unfold crud.create_user, bind, add_user, ret. now rewrite H.
Qed.

Lemma crud_create_user_taken db user now :
  crud.get_user_by_email db (schemas.UserCreate.email user) <> None ->
  crud.create_user get_password_hash user now db
  = (Raise IntegrityError, draw_users_id db).
Proof.
  intros H. unfold crud.create_user, bind, add_user, ret.
  destruct (existsb _ _) eqn:E; [reflexivity|].
  now apply email_taken_iff in E.
Qed.

Lemma create_user_fresh db user now :
  crud.get_user_by_email db (schemas.UserCreate.email user) = None ->
  routers.users.create_user get_password_hash user now db
  = (Return (registered_row db user now),
     insert_user (registered_row db user now) db).
Proof.
  intros H. unfold routers.users.create_user, bind, query. rewrite H.
  now apply crud_create_user_fresh.
Qed.

Lemma create_user_taken db user now u :
  crud.get_user_by_email db (schemas.UserCreate.email user) = Some u ->
  routers.users.create_user get_password_hash user now db = (Raise conflict, db).
Proof.
  intros H. unfold routers.users.create_user, bind, query. now rewrite H.
Qed.

(** Whichever layer reports success, the same row went into the table. *)
Lemma create_user_success db user now u db' :
  crud.create_user get_password_hash user now db = (Return u, db')
  \/ routers.users.create_user get_password_hash user now db = (Return u, db') ->
  crud.get_user_by_email db (schemas.UserCreate.email user) = None
  /\ u = registered_row db user now
  /\ db' = insert_user u db.
Proof.
  destruct (crud.get_user_by_email db (schemas.UserCreate.email user))
    as [v|] eqn:E.
  - intros [H|H].
    + rewrite crud_create_user_taken in H by congruence. discriminate.
    + rewrite (create_user_taken _ _ _ _ E) in H. discriminate.
  - intros [H|H].
    + rewrite (crud_create_user_fresh _ _ _ E) in H.
      injection H as <- <-. auto.
    + rewrite (create_user_fresh _ _ _ E) in H.
      injection H as <- <-. auto.
Qed.

(** C5.  Registering an email that is not yet in the table succeeds and
    inserts the user; registering the same email again, with whatever
    password, raises the 400 duplicate-email error and leaves the store
    untouched.  The router's lookup runs before the insert, so the
    table's own uniqueness constraint is never what rejects the request. *)
Theorem duplicate_registration_rejected db first second now now' :
  crud.get_user_by_email db (schemas.UserCreate.email first) = None ->
  schemas.UserCreate.email second = schemas.UserCreate.email first ->
  exists u db1,
    routers.users.create_user get_password_hash first now db = (Return u, db1)
    /\ User.email u = schemas.UserCreate.email first
    /\ users db1 = (users db ++ [u])%list
    /\ crud.get_user_by_email db1 (schemas.UserCreate.email first) = Some u
    /\ routers.users.create_user get_password_hash second now' db1
       = (Raise conflict, db1)
    /\ forall user t e db2,
         routers.users.create_user get_password_hash user t db1 = (Raise e, db2)
         -> e = conflict /\ db2 = db1.
Proof.
  intros Hfresh Hsame.
  exists (registered_row db first now),
         (insert_user (registered_row db first now) db).
  assert (Hstored :
            crud.get_user_by_email
              (insert_user (registered_row db first now) db)
              (schemas.UserCreate.email first)
            = Some (registered_row db first now))
    by (apply (get_user_by_email_inserted db (registered_row db first now));
        exact Hfresh).
  split; [now apply create_user_fresh|].
  split; [reflexivity|]. split; [reflexivity|]. split; [exact Hstored|].
  split.
  - apply create_user_taken with (u := registered_row db first now).
    now rewrite Hsame.
  - intros user t e db2 H.
    destruct (crud.get_user_by_email
                (insert_user (registered_row db first now) db)
                (schemas.UserCreate.email user)) as [v|] eqn:E.
    + rewrite (create_user_taken _ _ _ _ E) in H. injection H as <- <-. auto.
    + rewrite (create_user_fresh _ _ _ E) in H. discriminate.
Qed.

(** C6.  After a successful registration the persisted row's credential is
    the hash of the raw password, and the raw password reaches the row
    through the hash alone: every column is fixed by the sequence, the
    email, the hash, the column defaults and the clock, so a request with
    another raw password of the same hash persists the very same row, and
    unless the raw password coincides with the email or with its own hash
    no column holds it. *)
Theorem registration_stores_only_hash db user now u db' :
  crud.create_user get_password_hash user now db = (Return u, db')
  \/ routers.users.create_user get_password_hash user now db = (Return u, db') ->
  User.hashed_password u
  = get_password_hash (schemas.UserCreate.password user)
  /\ crud.get_user_by_email db' (schemas.UserCreate.email user) = Some u
  /\ u = User.mk (users_id_seq db) (schemas.UserCreate.email user)
                 (get_password_hash (schemas.UserCreate.password user))
                 true false now
  /\ (forall other,
        schemas.UserCreate.email other = schemas.UserCreate.email user ->
        get_password_hash (schemas.UserCreate.password other)
        = get_password_hash (schemas.UserCreate.password user) ->
        crud.create_user get_password_hash other now db = (Return u, db')
        /\ routers.users.create_user get_password_hash other now db
           = (Return u, db'))
  /\ (schemas.UserCreate.email user <> schemas.UserCreate.password user ->
      get_password_hash (schemas.UserCreate.password user)
      <> schemas.UserCreate.password user ->
      User.email u <> schemas.UserCreate.password user
      /\ User.hashed_password u <> schemas.UserCreate.password user).
Proof.
  intros H.
  destruct (create_user_success db user now u db' H) as (Hfresh & -> & ->).
  split; [reflexivity|].
  split; [now apply (get_user_by_email_inserted db (registered_row db user now))|].
  split; [reflexivity|].
  split; [|auto].
  intros other Hemail Hhash.
  rewrite crud_create_user_fresh, create_user_fresh by now rewrite Hemail.
  unfold new_user_row. now rewrite Hemail, Hhash.
Qed.

(** C10.  A user created by [create_user] starts active and not premium:
    only the email and the hashed password come from the request, the two
    flags take their column defaults, in the row handed back and in the
    row a later lookup by that email finds. *)
Theorem registration_default_flags db user now u db' :
  crud.create_user get_password_hash user now db = (Return u, db')
  \/ routers.users.create_user get_password_hash user now db = (Return u, db') ->
  User.is_active u = true
  /\ User.is_premium u = false
  /\ User.email u = schemas.UserCreate.email user
  /\ User.hashed_password u
     = get_password_hash (schemas.UserCreate.password user)
  /\ In u (users db')
  /\ forall stored,
       crud.get_user_by_email db' (schemas.UserCreate.email user) = Some stored ->
       stored = u /\ User.is_active stored = true
       /\ User.is_premium stored = false.
Proof.
  intros H.
  destruct (create_user_success db user now u db' H) as (Hfresh & -> & ->).
  repeat (split; [reflexivity|]).
  split; [simpl; apply in_or_app; right; now left|].
  intros stored Hstored.
  pose proof (get_user_by_email_inserted db (registered_row db user now) Hfresh)
    as Hrow.
  change (User.email (registered_row db user now))
    with (schemas.UserCreate.email user) in Hrow.
  rewrite Hrow in Hstored. injection Hstored as <-. auto.
Qed.

End Registration.

(* ================================================================== *)
(** ** POST /users/me/premium/: the premium flag *)

Lemma get_user_by_email_updated db email pk value :
  crud.get_user_by_email
    (update_users_where_id pk (User.with_is_premium value) db) email
  = option_map (fun u => if User.id u =? pk
                         then User.with_is_premium value u else u)
               (crud.get_user_by_email db email).
Proof.
  unfold crud.get_user_by_email. simpl.
  apply first_after_update. intros x. now destruct (User.id x =? pk).
Qed.

Lemma update_user_premium_found db email value u :
  crud.get_user_by_email db email = Some u ->
  crud.update_user_premium email value db
  = (Return (User.with_is_premium value u),
     update_users_where_id (User.id u) (User.with_is_premium value) db).
Proof.
  intros H. unfold crud.update_user_premium, bind, query. now rewrite H.
Qed.

Lemma update_user_premium_missing db email value :
  crud.get_user_by_email db email = None ->
  crud.update_user_premium email value db = (Raise AttributeError, db).
Proof.
  intros H. unfold crud.update_user_premium, bind, query. now rewrite H.
Qed.

Lemma get_user_by_email_after_update db email value u :
  crud.get_user_by_email db email = Some u ->
  crud.get_user_by_email
    (update_users_where_id (User.id u) (User.with_is_premium value) db) email
  = Some (User.with_is_premium value u).
Proof.
  intros H. rewrite get_user_by_email_updated, H. simpl.
  now rewrite Z.eqb_refl.
Qed.

Lemma update_users_where_id_twice pk value db :
  update_users_where_id pk (User.with_is_premium value)
    (update_users_where_id pk (User.with_is_premium value) db)
  = update_users_where_id pk (User.with_is_premium value) db.
Proof.
  unfold update_users_where_id. simpl. f_equal.
  apply (update_twice (fun u => User.id u =? pk) (User.with_is_premium value));
    reflexivity.
Qed.

Lemma update_user_premium_twice db email value u :
  crud.get_user_by_email db email = Some u ->
  (crud.update_user_premium email value ;;; crud.update_user_premium email value) db
  = crud.update_user_premium email value db.
Proof.
  intros H. unfold bind at 1.
  rewrite (update_user_premium_found _ _ _ _ H).
  rewrite (update_user_premium_found _ _ _ _
             (get_user_by_email_after_update _ _ value _ H)).
  simpl. now rewrite update_users_where_id_twice.
Qed.

(** C7.  Setting the premium flag is idempotent: for a user present in the
    table, running [update_user_premium email value] twice in a row hands
    back the same row and leaves the same store as running it once.  The
    upgrade endpoint sets the caller's flag to [true] whatever it was, and
    changes no other column of the caller's row. *)
Theorem update_user_premium_idempotent db email value u :
  crud.get_user_by_email db email = Some u ->
  (crud.update_user_premium email value ;;; crud.update_user_premium email value) db
  = crud.update_user_premium email value db
  /\ exec (crud.update_user_premium email value)
          (exec (crud.update_user_premium email value) db)
     = exec (crud.update_user_premium email value) db
  /\ forall current_user,
       User.email current_user = email ->
       exists u' db',
         routers.users.upgrade_to_premium current_user db = (Return u', db')
         /\ User.is_premium u' = true
         /\ u' = User.with_is_premium true u
         /\ crud.get_user_by_email db' email = Some u'
         /\ routers.users.upgrade_to_premium current_user db' = (Return u', db').
Proof.
  intros H. split; [now apply update_user_premium_twice with (u := u)|].
  pose proof (get_user_by_email_after_update _ _ value _ H) as H'.
  split.
  - unfold exec. rewrite (update_user_premium_found _ _ _ _ H). simpl.
    rewrite (update_user_premium_found _ _ _ _ H'). simpl.
    apply update_users_where_id_twice.
  - intros current_user Hemail.
    unfold routers.users.upgrade_to_premium. rewrite Hemail.
    pose proof (get_user_by_email_after_update _ _ true _ H) as Ht.
    exists (User.with_is_premium true u),
           (update_users_where_id (User.id u) (User.with_is_premium true) db).
    split; [now apply update_user_premium_found|].
    split; [reflexivity|]. split; [reflexivity|]. split; [exact Ht|].
    rewrite (update_user_premium_found _ _ _ _ Ht). simpl.
    now rewrite update_users_where_id_twice.
Qed.

(** C9.  [update_user_premium] presupposes a user with the given email.
    Without one the lookup yields [None] and the assignment to its
    attribute fails, with nothing written; with one the function returns
    the updated row and no exception can come out of it. *)
Theorem update_user_premium_requires_user db email value :
  (crud.get_user_by_email db email = None ->
   crud.update_user_premium email value db = (Raise AttributeError, db))
  /\ (forall u,
        crud.get_user_by_email db email = Some u ->
        (exists db',
           crud.update_user_premium email value db
           = (Return (User.with_is_premium value u), db'))
        /\ forall e db',
             crud.update_user_premium email value db <> (Raise e, db')).
Proof.
  split; [apply update_user_premium_missing|].
  intros u H. rewrite (update_user_premium_found _ _ _ _ H).
  split; [eauto|discriminate].
Qed.

(* ================================================================== *)
(** ** Register, upgrade, read a premium guide *)

(** C4 (evaluation of the code where the claim fails).  [read_tax_guide]
    declares [current_user: User = None] and, unlike the handlers of
    [users.py] and [consultations.py], names no dependency that would supply
    the caller, so the route runs it with [None].  On the seeded store,
    after "a@x.com" has registered and upgraded, the stored user is premium,
    yet the fetch of premium guide 4 is refused with 403 exactly as before
    the upgrade; the handler would return the guide only if it were handed
    the upgraded user. *)
Theorem upgraded_user_still_refused :
  routers.users.create_user fixture_hash alice 1 (main.sample_db 0)
  = (Return alice_row, registered_db)
  /\ routers.tax_guides.read_tax_guide 4 registered_db None = Raise forbidden
  /\ exists u' db',
       routers.users.upgrade_to_premium alice_row registered_db = (Return u', db')
       /\ User.is_premium u' = true
       /\ crud.get_user_by_email db' "a@x.com" = Some u'
       /\ crud.get_tax_guide db' 4 = Some premium_guide
       /\ routers.tax_guides.read_tax_guide 4 db' None = Raise forbidden
       /\ routers.tax_guides.read_tax_guide 4 db' (Some u') = Return premium_guide.
Proof.
  split; [vm_compute; reflexivity|].
  split; [vm_compute; reflexivity|].
  eexists. eexists.
  split; [vm_compute; reflexivity|].
  split; [reflexivity|].
  split; [vm_compute; reflexivity|].
  split; [vm_compute; reflexivity|].
  split; vm_compute; reflexivity.
Qed.

(* ================================================================== *)
(** ** Consultations *)

Lemma stored_user_id_exists db u :
  In u (users db) ->
  existsb (fun v => User.id v =? User.id u) (users db) = true.
Proof.
  intros H. apply existsb_exists. exists u. split; [exact H|apply Z.eqb_refl].
Qed.

(** The three ways [create_consultation] can end. *)
Lemma create_consultation_outcome consultation current_user now db :
  routers.consultations.create_consultation consultation current_user now db
  = if has_nul (schemas.ConsultationCreate.subject consultation)
       || has_nul (schemas.ConsultationCreate.message consultation)
    then (Raise ValueError, db)
    else if existsb (fun u => User.id u =? User.id current_user) (users db)
    then (Return (Consultation.mk (consultations_id_seq db)
                    (User.id current_user)
                    (schemas.ConsultationCreate.subject consultation)
                    (schemas.ConsultationCreate.message consultation)
                    "pending" now),
          insert_consultation
            (Consultation.mk (consultations_id_seq db)
               (User.id current_user)
               (schemas.ConsultationCreate.subject consultation)
               (schemas.ConsultationCreate.message consultation)
               "pending" now) db)
    else (Raise IntegrityError, draw_consultations_id db).
Proof.
  unfold routers.consultations.create_consultation, crud.create_consultation,
    bind, add_consultation, ret.
  destruct (has_nul _ || has_nul _); [reflexivity|].
  now destruct (existsb _ _).
Qed.

Lemma create_consultation_returned consultation current_user now db row db' :
  routers.consultations.create_consultation consultation current_user now db
  = (Return row, db') ->
  row = Consultation.mk (consultations_id_seq db) (User.id current_user)
          (schemas.ConsultationCreate.subject consultation)
          (schemas.ConsultationCreate.message consultation) "pending" now
  /\ db' = insert_consultation row db.
Proof.
  rewrite create_consultation_outcome.
  destruct (has_nul _ || has_nul _); [discriminate|].
  destruct (existsb _ _); [|discriminate].
  intros [= <- <-]. auto.
Qed.

Lemma read_user_consultations_exact db current_user c :
  In c (routers.consultations.read_user_consultations db current_user)
  <-> In c (consultations db)
      /\ Consultation.user_id c = User.id current_user.
Proof.
  unfold routers.consultations.read_user_consultations,
    crud.get_user_consultations.
  rewrite filter_In, Z.eqb_eq. reflexivity.
Qed.

(** C8.  A consultation created through the endpoint is owned by the caller.
    For a caller stored in the users table and a subject and message the
    driver accepts, the endpoint returns; whenever it returns, the row's
    [user_id] is the caller's id, the row is appended to the table, and the
    caller's listing shows it.  The listing consists of exactly the stored
    consultations whose [user_id] is the caller's id, in table order, so a
    consultation of a user with another id never appears in it. *)
Theorem consultations_belong_to_caller consultation current_user now db :
  (In current_user (users db) ->
   has_nul (schemas.ConsultationCreate.subject consultation) = false ->
   has_nul (schemas.ConsultationCreate.message consultation) = false ->
   exists row db',
     routers.consultations.create_consultation consultation current_user now db
     = (Return row, db'))
  /\ (forall row db',
        routers.consultations.create_consultation consultation current_user now db
        = (Return row, db') ->
        Consultation.user_id row = User.id current_user
        /\ consultations db' = (consultations db ++ [row])%list
        /\ In row (routers.consultations.read_user_consultations db' current_user))
  /\ routers.consultations.read_user_consultations db current_user
     = filter (fun c => Consultation.user_id c =? User.id current_user)
              (consultations db)
  /\ (forall c,
        In c (routers.consultations.read_user_consultations db current_user)
        <-> In c (consultations db)
            /\ Consultation.user_id c = User.id current_user)
  /\ (forall c,
        In c (consultations db) ->
        Consultation.user_id c <> User.id current_user ->
        ~ In c (routers.consultations.read_user_consultations db current_user)).
Proof.
  split; [|split].
  - intros Hin Hs Hm. rewrite create_consultation_outcome, Hs, Hm.
    rewrite (stored_user_id_exists _ _ Hin). simpl. eauto.
  - intros row db' Hrun.
    apply create_consultation_returned in Hrun as [Hrow ->].
    split; [now rewrite Hrow|]. split; [reflexivity|].
    apply read_user_consultations_exact. split.
    + simpl. apply in_or_app. right. now left.
    + now rewrite Hrow.
  - split; [reflexivity|]. split; [apply read_user_consultations_exact|].
    intros c _ Hother Hin. apply read_user_consultations_exact in Hin. tauto.
Qed.

(* ================================================================== *)
(** ** GET /tax-guides/, GET /faqs/ and GET /faqs/category/{category} *)

Lemma read_tax_guides_unqualified skip limit db current_user :
  lacks_premium current_user ->
  routers.tax_guides.read_tax_guides skip limit db current_user
  = offset_limit skip limit (tax_guides db).
Proof.
  unfold routers.tax_guides.read_tax_guides, crud.get_tax_guides.
  intros [->|(u & -> & ->)]; reflexivity.
Qed.

Lemma read_tax_guides_qualified skip limit db current_user :
  has_premium current_user ->
  routers.tax_guides.read_tax_guides skip limit db current_user
  = offset_limit skip limit
      (filter (fun g => Bool.eqb (TaxGuide.is_premium g) true) (tax_guides db)).
Proof.
  unfold routers.tax_guides.read_tax_guides, crud.get_tax_guides.
  intros (u & -> & ->). reflexivity.
Qed.

Lemma read_faqs_unqualified skip limit db current_user :
  lacks_premium current_user ->
  routers.faqs.read_faqs skip limit db current_user
  = offset_limit skip limit (faqs db).
Proof.
  unfold routers.faqs.read_faqs, crud.get_faqs.
  intros [->|(u & -> & ->)]; reflexivity.
Qed.

Lemma read_faqs_qualified skip limit db current_user :
  has_premium current_user ->
  routers.faqs.read_faqs skip limit db current_user
  = offset_limit skip limit
      (filter (fun q => Bool.eqb (FAQ.is_premium q) true) (faqs db)).
Proof.
  unfold routers.faqs.read_faqs, crud.get_faqs.
  intros (u & -> & ->). reflexivity.
Qed.

Lemma offset_limit_all {A : Type} (rows : list A) :
  (List.length rows <= 100)%nat ->
  offset_limit default_skip default_limit rows = Return rows.
Proof.
  intros H. unfold offset_limit, default_skip, default_limit.
  change (0 <? 0) with false. change (100 <? 0) with false.
  change (Z.to_nat 0) with 0%nat. cbn [orb skipn].
  now rewrite firstn_all2 by lia.
Qed.

(** What the list endpoints hand out, for any store that fits one page:
    a caller without premium gets the whole table, premium rows included. *)
Lemma read_tax_guides_unqualified_page db current_user :
  lacks_premium current_user ->
  (List.length (tax_guides db) <= 100)%nat ->
  routers.tax_guides.read_tax_guides default_skip default_limit db current_user
  = Return (tax_guides db).
Proof.
  intros Hl Hlen. rewrite read_tax_guides_unqualified by exact Hl.
  now apply offset_limit_all.
Qed.

Lemma read_faq_by_category_ungated db q :
  In q (faqs db) ->
  In q (routers.faqs.read_faq_by_category (FAQ.category q) db).
Proof.
  intros H. unfold routers.faqs.read_faq_by_category, crud.get_faq_by_category.
  apply filter_In. split; [exact H|apply String.eqb_refl].
Qed.

(** C1 (evaluation of the code where the claim fails).  On the store the
    application seeds at startup, an anonymous caller is refused the premium
    guide by the single fetch, yet receives the same guide, content
    included, from the list endpoint; the FAQ list and the category list
    hand the premium FAQ to the anonymous caller as well. *)
Theorem anonymous_lists_return_premium_content now :
  exists g q,
    In g (tax_guides (main.sample_db now))
    /\ TaxGuide.is_premium g = true
    /\ TaxGuide.content g
       = "This premium guide covers advanced tax planning strategies..."
    /\ routers.tax_guides.read_tax_guide (TaxGuide.id g) (main.sample_db now) None
       = Raise forbidden
    /\ (exists l,
          routers.tax_guides.read_tax_guides default_skip default_limit
            (main.sample_db now) None = Return l
          /\ In g l)
    /\ In q (faqs (main.sample_db now))
    /\ FAQ.is_premium q = true
    /\ (exists l,
          routers.faqs.read_faqs default_skip default_limit
            (main.sample_db now) None = Return l
          /\ In q l)
    /\ In q (routers.faqs.read_faq_by_category "Deductions" (main.sample_db now)).
Proof.
  exists (TaxGuide.mk 4 "Advanced Tax Planning for Non-Residents"
            "This premium guide covers advanced tax planning strategies..."
            true now None),
         (FAQ.mk 4 "What tax deductions can international students claim?"
            "As a non-resident, you may be eligible for certain deductions..."
            "Deductions" true).
  split; [vm_compute; tauto|].
  split; [reflexivity|]. split; [reflexivity|]. split; [reflexivity|].
  split; [eexists; split; [reflexivity|vm_compute; tauto]|].
  split; [vm_compute; tauto|]. split; [reflexivity|].
  split; [eexists; split; [reflexivity|vm_compute; tauto]|].
  vm_compute; tauto.
Qed.

(** C2 (evaluation of the code where the claim fails).  On the seeded store
    the list endpoints apply the premium filter the wrong way round: a
    caller without premium, anonymous or identified, receives every row of
    the table, the premium one included, and a premium caller receives the
    premium rows only, so the non-premium rows are withheld from exactly the
    callers who qualify for everything. *)
Theorem list_endpoints_filter_inverted now :
  routers.tax_guides.read_tax_guides default_skip default_limit
    (main.sample_db now) None
  = Return (tax_guides (main.sample_db now))
  /\ (forall u,
        routers.tax_guides.read_tax_guides default_skip default_limit
          (main.sample_db now) (Some (User.with_is_premium false u))
        = Return (tax_guides (main.sample_db now)))
  /\ (forall u,
        routers.tax_guides.read_tax_guides default_skip default_limit
          (main.sample_db now) (Some (User.with_is_premium true u))
        = Return (filter TaxGuide.is_premium (tax_guides (main.sample_db now))))
  /\ map TaxGuide.is_premium (tax_guides (main.sample_db now))
     = [false; false; false; true]
  /\ routers.faqs.read_faqs default_skip default_limit (main.sample_db now) None
     = Return (faqs (main.sample_db now))
  /\ (forall u,
        routers.faqs.read_faqs default_skip default_limit
          (main.sample_db now) (Some (User.with_is_premium true u))
        = Return (filter FAQ.is_premium (faqs (main.sample_db now))))
  /\ map FAQ.is_premium (faqs (main.sample_db now))
     = [false; false; false; true].
Proof.
  split; [vm_compute; reflexivity|].
  split; [intros u; vm_compute; reflexivity|].
  split; [intros u; vm_compute; reflexivity|].
  split; [vm_compute; reflexivity|].
  split; [vm_compute; reflexivity|].
  split; [intros u; vm_compute; reflexivity|].
  vm_compute; reflexivity.
Qed.

(* ================================================================== *)
(** ** The scenario of the specification, run through the theorems *)

Lemma consultations_belong_to_caller_witness :
  In alice_row (users registered_db)
  /\ has_nul "Form 8843" = false
  /\ has_nul "Do I have to file?" = false
  /\ exists row db',
       routers.consultations.create_consultation
         (schemas.ConsultationCreate.mk "Form 8843" "Do I have to file?")
         alice_row 2 registered_db
       = (Return row, db')
       /\ Consultation.user_id row = User.id alice_row
       /\ In row (routers.consultations.read_user_consultations db' alice_row).
Proof.
  assert (Hin : In alice_row (users registered_db)) by (vm_compute; tauto).
  assert (Hs : has_nul "Form 8843" = false) by reflexivity.
  assert (Hm : has_nul "Do I have to file?" = false) by reflexivity.
  split; [exact Hin|]. split; [exact Hs|]. split; [exact Hm|].
  destruct (consultations_belong_to_caller
              (schemas.ConsultationCreate.mk "Form 8843" "Do I have to file?")
              alice_row 2 registered_db) as (Hreturns & Hreturned & _).
  destruct (Hreturns Hin Hs Hm) as (row & db' & Hrun).
  destruct (Hreturned row db' Hrun) as (Howner & _ & Hlisted).
  exists row, db'. auto.
Defined.

Lemma duplicate_registration_rejected_witness :
  crud.get_user_by_email (main.sample_db 0) (schemas.UserCreate.email alice) = None
  /\ exists u db1,
       routers.users.create_user fixture_hash alice 1 (main.sample_db 0)
       = (Return u, db1)
       /\ User.email u = schemas.UserCreate.email alice
       /\ users db1 = (users (main.sample_db 0) ++ [u])%list
       /\ crud.get_user_by_email db1 (schemas.UserCreate.email alice) = Some u
       /\ routers.users.create_user fixture_hash
            (schemas.UserCreate.mk "a@x.com" "another password") 2 db1
          = (Raise conflict, db1)
       /\ forall user t e db2,
            routers.users.create_user fixture_hash user t db1 = (Raise e, db2)
            -> e = conflict /\ db2 = db1.
Proof.
  assert (Hfresh : crud.get_user_by_email (main.sample_db 0)
                     (schemas.UserCreate.email alice) = None)
    by (vm_compute; reflexivity).
  split; [exact Hfresh|].
  exact (duplicate_registration_rejected fixture_hash (main.sample_db 0) alice
           (schemas.UserCreate.mk "a@x.com" "another password") 1 2
           Hfresh eq_refl).
Defined.

Lemma registration_stores_only_hash_witness :
  routers.users.create_user fixture_hash alice 1 (main.sample_db 0)
  = (Return alice_row, registered_db)
  /\ User.hashed_password alice_row
     = fixture_hash (schemas.UserCreate.password alice)
  /\ crud.get_user_by_email registered_db (schemas.UserCreate.email alice)
     = Some alice_row
  /\ User.email alice_row <> schemas.UserCreate.password alice
  /\ User.hashed_password alice_row <> schemas.UserCreate.password alice.
Proof.
  assert (Hrun : routers.users.create_user fixture_hash alice 1 (main.sample_db 0)
                 = (Return alice_row, registered_db))
    by (vm_compute; reflexivity).
  destruct (registration_stores_only_hash fixture_hash (main.sample_db 0) alice 1
              alice_row registered_db (or_intror Hrun))
    as (Hhash & Hstored & _ & _ & Hplain).
  split; [exact Hrun|]. split; [exact Hhash|]. split; [exact Hstored|].
  apply Hplain; vm_compute; discriminate.
Defined.

Lemma registration_default_flags_witness :
  routers.users.create_user fixture_hash alice 1 (main.sample_db 0)
  = (Return alice_row, registered_db)
  /\ User.is_active alice_row = true
  /\ User.is_premium alice_row = false
  /\ In alice_row (users registered_db).
Proof.
  assert (Hrun : routers.users.create_user fixture_hash alice 1 (main.sample_db 0)
                 = (Return alice_row, registered_db))
    by (vm_compute; reflexivity).
  destruct (registration_default_flags fixture_hash (main.sample_db 0) alice 1
              alice_row registered_db (or_intror Hrun))
    as (Hactive & Hpremium & _ & _ & Hin & _).
  split; [exact Hrun|]. split; [exact Hactive|]. split; [exact Hpremium|].
  exact Hin.
Defined.

Lemma update_user_premium_idempotent_witness :
  crud.get_user_by_email registered_db "a@x.com" = Some alice_row
  /\ exec (crud.update_user_premium "a@x.com" true)
          (exec (crud.update_user_premium "a@x.com" true) registered_db)
     = exec (crud.update_user_premium "a@x.com" true) registered_db
  /\ exists u' db',
       routers.users.upgrade_to_premium alice_row registered_db = (Return u', db')
       /\ User.is_premium u' = true.
Proof.
  assert (Hfound : crud.get_user_by_email registered_db "a@x.com" = Some alice_row)
    by (vm_compute; reflexivity).
  destruct (update_user_premium_idempotent registered_db "a@x.com" true alice_row
              Hfound) as (_ & Hexec & Hupgrade).
  split; [exact Hfound|]. split; [exact Hexec|].
  destruct (Hupgrade alice_row eq_refl) as (u' & db' & Hrun & Hflag & _).
  exists u', db'. split; [exact Hrun|exact Hflag].
Defined.

Lemma update_user_premium_requires_user_witness :
  crud.get_user_by_email registered_db "nobody@x.com" = None
  /\ crud.update_user_premium "nobody@x.com" true registered_db
     = (Raise AttributeError, registered_db)
  /\ crud.get_user_by_email registered_db "a@x.com" = Some alice_row
  /\ exists db',
       crud.update_user_premium "a@x.com" true registered_db
       = (Return (User.with_is_premium true alice_row), db').
Proof.
  assert (Hmissing : crud.get_user_by_email registered_db "nobody@x.com" = None)
    by (vm_compute; reflexivity).
  assert (Hfound : crud.get_user_by_email registered_db "a@x.com" = Some alice_row)
    by (vm_compute; reflexivity).
  split; [exact Hmissing|].
  split.
  - exact (proj1 (update_user_premium_requires_user
                    registered_db "nobody@x.com" true) Hmissing).
  - split; [exact Hfound|].
    exact (proj1 (proj2 (update_user_premium_requires_user
                           registered_db "a@x.com" true) alice_row Hfound)).
Defined.

(* ================================================================== *)
(** ** Keys, sequences and the consistency of the store *)

Section Keys.
Context {A K : Type}.
Variable eqb : K -> K -> bool.
Hypothesis eqb_spec : forall a b, eqb a b = true <-> a = b.
Variable key : A -> K.

Lemma first_by_key_stored rows r :
  NoDup (map key rows) -> In r rows ->
  find (fun x => eqb (key x) (key r)) rows = Some r.
Proof.
  induction rows as [|r0 rows IH]; simpl; intros Hnd Hin; [contradiction|].
  inversion Hnd as [|k ks Hfresh Hnd']; subst.
  destruct Hin as [->|Hin].
  - now rewrite (proj2 (eqb_spec (key r) (key r)) eq_refl).
  - destruct (eqb (key r0) (key r)) eqn:E; [|now apply IH].
    apply eqb_spec in E. exfalso. apply Hfresh. rewrite E. now apply in_map.
Qed.


Lemma first_none_key_absent rows k :
  find (fun x => eqb (key x) k) rows = None -> ~ In k (map key rows).
Proof.
  intros H Hin. apply in_map_iff in Hin as (x & Hk & Hx).
  pose proof (proj1 (first_none_iff _ _) H x Hx) as E. simpl in E.
  rewrite (proj2 (eqb_spec (key x) k) Hk) in E. discriminate.
Qed.

Lemma first_other_key_after_insert rows row k :
  key row <> k ->
  find (fun x => eqb (key x) k) (rows ++ [row])
  = find (fun x => eqb (key x) k) rows.
Proof.
  intros Hk. induction rows as [|r rows IH]; simpl.
  - destruct (eqb (key row) k) eqn:E; [|reflexivity].
    now apply eqb_spec in E.
  - now rewrite IH.
Qed.

Lemma nodup_keys_after_insert rows row :
  NoDup (map key rows) -> ~ In (key row) (map key rows) ->
  NoDup (map key (rows ++ [row])).
Proof.
  intros Hnd Hfresh. rewrite map_app. simpl.
  apply NoDup_app; [exact Hnd| |].
  - constructor; [intros []|constructor].
  - intros k Hk [<-|[]]. now apply Hfresh.
Qed.
End Keys.

Lemma keyed_fresh {A : Type} (key : A -> Z) seq rows :
  keyed key seq rows -> ~ In seq (map key rows).
Proof.
  intros [_ Hbelow] Hin. apply in_map_iff in Hin as (r & Hr & Hin).
  rewrite Forall_forall in Hbelow. specialize (Hbelow r Hin). lia.
Qed.

Lemma keyed_after_insert {A : Type} (key : A -> Z) seq rows row :
  keyed key seq rows -> key row = seq -> keyed key (seq + 1) (rows ++ [row]).
Proof.
  intros Hk Hrow. pose proof (keyed_fresh _ _ _ Hk) as Hfresh.
  destruct Hk as [Hnd Hbelow]. split.
  - apply nodup_keys_after_insert; [exact Hnd|now rewrite Hrow].
  - apply Forall_app. split.
    + eapply Forall_impl; [|exact Hbelow]. simpl. intros; lia.
    + constructor; [lia|constructor].
Qed.

Lemma keyed_after_update {A : Type} (key : A -> Z) seq rows (f : A -> A) :
  (forall r, key (f r) = key r) -> keyed key seq rows -> keyed key seq (map f rows).
Proof.
  intros Hf [Hnd Hbelow]. split.
  - rewrite map_map. now rewrite (map_ext _ key Hf).
  - apply Forall_map. eapply Forall_impl; [|exact Hbelow].
    intros r. simpl. now rewrite Hf.
Qed.

Lemma empty_db_consistent : consistent empty_db.
Proof.
  constructor; try (split; simpl; constructor). simpl. constructor.
Qed.

(** How [preserves] follows the structure of a computation. *)
Section Preservation.
Context {A B : Type} (P : Session -> Prop).

Lemma preserves_ret (a : A) : preserves P (ret a).
Proof. intros db H. exact H. Qed.

Lemma preserves_raise (e : Exception) : preserves P (@raise A e).
Proof. intros db H. exact H. Qed.

Lemma preserves_query (q : Session -> A) : preserves P (query q).
Proof. intros db H. exact H. Qed.

Lemma preserves_bind (m : M A) (k : A -> M B) :
  preserves P m -> (forall a, preserves P (k a)) -> preserves P (bind m k).
Proof.
  intros Hm Hk db H. specialize (Hm db H). unfold exec, bind in *.
  destruct (m db) as [[a|e] db']; simpl in *; [|exact Hm].
  now apply Hk.
Qed.
End Preservation.

Lemma keyed_after_draw {A : Type} (key : A -> Z) seq rows :
  keyed key seq rows -> keyed key (seq + 1) rows.
Proof.
  intros [Hnd Hbelow]. split; [exact Hnd|].
  eapply Forall_impl; [|exact Hbelow]. simpl. intros; lia.
Qed.

Lemma draw_users_id_consistent db :
  consistent db -> consistent (draw_users_id db).
Proof.
  intros []. constructor; simpl; try assumption. now apply keyed_after_draw.
Qed.

Lemma draw_consultations_id_consistent db :
  consistent db -> consistent (draw_consultations_id db).
Proof.
  intros []. constructor; simpl; try assumption. now apply keyed_after_draw.
Qed.

Lemma add_user_consistent email hashed_password now :
  preserves consistent (add_user email hashed_password now).
Proof.
  intros db H. unfold exec, add_user.
  destruct (existsb _ _) eqn:E; simpl; [now apply draw_users_id_consistent|].
  apply email_taken_iff in E. destruct H.
  constructor; simpl; try assumption.
  - now apply keyed_after_insert.
  - apply nodup_keys_after_insert; [assumption|].
    exact (first_none_key_absent String.eqb String.eqb_eq User.email _ _ E).
Qed.

Lemma add_tax_guide_consistent title content is_premium now :
  preserves consistent (add_tax_guide title content is_premium now).
Proof.
  intros db H. unfold exec, add_tax_guide.
  destruct (has_nul title || has_nul content); simpl; [exact H|].
  destruct H. constructor; simpl; try assumption. now apply keyed_after_insert.
Qed.

Lemma add_consultation_consistent user_id subject message now :
  preserves consistent (add_consultation user_id subject message now).
Proof.
  intros db H. unfold exec, add_consultation.
  destruct (has_nul subject || has_nul message); simpl; [exact H|].
  destruct (existsb _ _); simpl;
    [|now apply draw_consultations_id_consistent].
  destruct H. constructor; simpl; try assumption. now apply keyed_after_insert.
Qed.

Lemma add_faq_consistent question answer category is_premium :
  preserves consistent (add_faq question answer category is_premium).
Proof.
  intros db H. unfold exec, add_faq.
  destruct (has_nul question || has_nul answer || has_nul category); simpl;
    [exact H|].
  destruct H. constructor; simpl; try assumption. now apply keyed_after_insert.
Qed.

Lemma update_users_consistent pk value db :
  consistent db ->
  consistent (update_users_where_id pk (User.with_is_premium value) db).
Proof.
  intros []. constructor; simpl; try assumption.
  - apply keyed_after_update; [|assumption].
    intros r. now destruct (User.id r =? pk).
  - rewrite map_map.
    rewrite (map_ext _ User.email); [assumption|].
    intros r. now destruct (User.id r =? pk).
Qed.

Lemma update_user_premium_consistent email value :
  preserves consistent (crud.update_user_premium email value).
Proof.
  unfold crud.update_user_premium.
  apply preserves_bind; [apply preserves_query|].
  intros [db_user|]; [|apply preserves_raise].
  apply preserves_bind; [|intros; apply preserves_ret].
  intros db H. now apply update_users_consistent.
Qed.

Lemma create_user_consistent get_password_hash user now :
  preserves consistent (routers.users.create_user get_password_hash user now).
Proof.
  unfold routers.users.create_user.
  apply preserves_bind; [apply preserves_query|].
  intros [taken|]; [apply preserves_raise|].
  unfold crud.create_user.
  apply preserves_bind; [apply add_user_consistent|intros; apply preserves_ret].
Qed.

Lemma create_tax_guide_consistent guide now :
  preserves consistent (routers.tax_guides.create_tax_guide guide now).
Proof.
  unfold routers.tax_guides.create_tax_guide, crud.create_tax_guide.
  apply preserves_bind; [apply add_tax_guide_consistent|intros; apply preserves_ret].
Qed.

Lemma create_faq_consistent faq :
  preserves consistent (routers.faqs.create_faq faq).
Proof.
  unfold routers.faqs.create_faq, crud.create_faq.
  apply preserves_bind; [apply add_faq_consistent|intros; apply preserves_ret].
Qed.

Lemma create_consultation_consistent consultation current_user now :
  preserves consistent
    (routers.consultations.create_consultation consultation current_user now).
Proof.
  unfold routers.consultations.create_consultation, crud.create_consultation.
  apply preserves_bind;
    [apply add_consultation_consistent|intros; apply preserves_ret].
Qed.

Lemma startup_event_consistent now :
  preserves consistent (main.startup_event now).
Proof.
  unfold main.startup_event.
  apply preserves_bind; [apply preserves_query|].
  intros [|g guides]; [|apply preserves_ret].
  repeat (apply preserves_bind;
          [first [apply add_tax_guide_consistent|apply add_faq_consistent]
          |intros _]).
  apply preserves_ret.
Qed.

Lemma sample_db_consistent now : consistent (main.sample_db now).
Proof.
  unfold main.sample_db.
  exact (startup_event_consistent now empty_db empty_db_consistent).
Qed.

Lemma registered_db_consistent : consistent registered_db.
Proof.
  unfold registered_db.
  exact (create_user_consistent fixture_hash alice 1 (main.sample_db 0)
           (sample_db_consistent 0)).
Qed.

(** X1.  The declared constraints are an invariant of the application:
    starting from a store whose primary keys are distinct and below their
    sequences and whose emails are distinct, every write path (registration,
    upgrade, the three create endpoints and the startup seeding) leaves
    such a store, whether the call returns or raises. *)
Theorem writes_keep_store_consistent get_password_hash db :
  consistent db ->
  (forall user now,
     consistent (exec (routers.users.create_user get_password_hash user now) db))
  /\ (forall current_user,
        consistent (exec (routers.users.upgrade_to_premium current_user) db))
  /\ (forall guide now,
        consistent (exec (routers.tax_guides.create_tax_guide guide now) db))
  /\ (forall faq, consistent (exec (routers.faqs.create_faq faq) db))
  /\ (forall consultation current_user now,
        consistent
          (exec (routers.consultations.create_consultation
                   consultation current_user now) db))
  /\ (forall now, consistent (exec (main.startup_event now) db)).
Proof.
  intros H.
  split; [intros; now apply create_user_consistent|].
  split; [intros; now apply update_user_premium_consistent|].
  split; [intros; now apply create_tax_guide_consistent|].
  split; [intros; now apply create_faq_consistent|].
  split; [intros; now apply create_consultation_consistent|].
  intros; now apply startup_event_consistent.
Qed.

Lemma writes_keep_store_consistent_witness :
  consistent empty_db
  /\ consistent (exec (routers.users.create_user fixture_hash alice 1) empty_db)
  /\ consistent (exec (main.startup_event 0) empty_db).
Proof.
  assert (H : consistent empty_db).
  { constructor; try (split; simpl; constructor). simpl. constructor. }
  destruct (writes_keep_store_consistent fixture_hash empty_db H)
    as (Hregister & _ & _ & _ & _ & Hstartup).
  split; [exact H|]. split; [exact (Hregister alice 1)|exact (Hstartup 0)].
Defined.

(* ================================================================== *)
(** ** Lookups by key on a consistent store *)

Lemma keys_determine_row {A : Type} (key : A -> Z) rows a b :
  NoDup (map key rows) -> In a rows -> In b rows -> key a = key b -> a = b.
Proof.
  intros Hnd Ha Hb Hk.
  pose proof (first_by_key_stored Z.eqb Z.eqb_eq key rows a Hnd Ha) as Fa.
  pose proof (first_by_key_stored Z.eqb Z.eqb_eq key rows b Hnd Hb) as Fb.
  rewrite Hk in Fa. congruence.
Qed.

Lemma get_user_stored db u :
  consistent db -> In u (users db) -> crud.get_user db (User.id u) = Some u.
Proof.
  intros [[Hnd _] _ _ _ _] Hin.
  exact (first_by_key_stored Z.eqb Z.eqb_eq User.id _ _ Hnd Hin).
Qed.

Lemma get_user_by_email_stored db u :
  consistent db -> In u (users db) ->
  crud.get_user_by_email db (User.email u) = Some u.
Proof.
  intros [_ Hnd _ _ _] Hin.
  exact (first_by_key_stored String.eqb String.eqb_eq User.email _ _ Hnd Hin).
Qed.

Lemma get_tax_guide_stored db g :
  consistent db -> In g (tax_guides db) ->
  crud.get_tax_guide db (TaxGuide.id g) = Some g.
Proof.
  intros [_ _ [Hnd _] _ _] Hin.
  exact (first_by_key_stored Z.eqb Z.eqb_eq TaxGuide.id _ _ Hnd Hin).
Qed.

(** X2.  On a consistent store every stored user is the one both lookups
    return, by primary key and by email, and a lookup that returns a user
    returns a stored one carrying the key asked for; the same holds for tax
    guides and their ids. *)
Theorem stored_rows_found_by_key db :
  consistent db ->
  (forall u, In u (users db) <-> crud.get_user db (User.id u) = Some u)
  /\ (forall u,
        In u (users db) <-> crud.get_user_by_email db (User.email u) = Some u)
  /\ (forall g,
        In g (tax_guides db) <-> crud.get_tax_guide db (TaxGuide.id g) = Some g).
Proof.
  intros H. split; [|split].
  - intros u. split; [now apply get_user_stored|].
    unfold crud.get_user. intros F. now apply find_some in F.
  - intros u. split; [now apply get_user_by_email_stored|].
    intros F. now apply get_user_by_email_some in F.
  - intros g. split; [now apply get_tax_guide_stored|].
    intros F. now apply get_tax_guide_some in F.
Qed.

Lemma stored_rows_found_by_key_witness :
  consistent registered_db
  /\ (In alice_row (users registered_db)
      <-> crud.get_user registered_db (User.id alice_row) = Some alice_row)
  /\ (In premium_guide (tax_guides registered_db)
      <-> crud.get_tax_guide registered_db (TaxGuide.id premium_guide)
          = Some premium_guide).
Proof.
  pose proof registered_db_consistent as H.
  destruct (stored_rows_found_by_key registered_db H) as (Hid & _ & Hguide).
  split; [exact H|]. split; [exact (Hid alice_row)|exact (Hguide premium_guide)].
Defined.

(* ================================================================== *)
(** ** Pages of the list queries *)

Section Pages.
Context {A : Type}.
Implicit Types (rows page : list A).

Lemma offset_limit_window skip limit rows :
  0 <= skip < bigint_bound -> 0 <= limit < bigint_bound ->
  offset_limit skip limit rows
  = Return (firstn (Z.to_nat limit) (skipn (Z.to_nat skip) rows)).
Proof.
  intros [Hs Hs'] [Hl Hl']. unfold offset_limit.
  rewrite (proj2 (Z.ltb_ge skip 0) Hs), (proj2 (Z.ltb_ge limit 0) Hl).
  rewrite (proj2 (Z.leb_gt bigint_bound skip) Hs').
  now rewrite (proj2 (Z.leb_gt bigint_bound limit) Hl').
Qed.

Lemma offset_limit_inv skip limit rows page :
  offset_limit skip limit rows = Return page ->
  0 <= skip < bigint_bound /\ 0 <= limit < bigint_bound
  /\ page = firstn (Z.to_nat limit) (skipn (Z.to_nat skip) rows).
Proof.
  unfold offset_limit.
  destruct (skip <? 0) eqn:Es; [discriminate|].
  destruct (limit <? 0) eqn:El; [discriminate|].
  destruct (bigint_bound <=? skip) eqn:Es'; [discriminate|].
  destruct (bigint_bound <=? limit) eqn:El'; [discriminate|].
  simpl. intros [= <-].
  apply Z.ltb_ge in Es, El. apply Z.leb_gt in Es', El'. auto.
Qed.

Lemma offset_limit_rejected skip limit rows :
  skip < 0 \/ limit < 0 \/ bigint_bound <= skip \/ bigint_bound <= limit ->
  offset_limit skip limit rows = Raise DataError.
Proof.
  intros H. unfold offset_limit.
  destruct (skip <? 0) eqn:Es; [reflexivity|].
  destruct (limit <? 0) eqn:El; [reflexivity|].
  destruct (bigint_bound <=? skip) eqn:Es'; [reflexivity|].
  destruct (bigint_bound <=? limit) eqn:El'; [reflexivity|].
  apply Z.ltb_ge in Es, El. apply Z.leb_gt in Es', El'. lia.
Qed.

Lemma window_incl n m rows : incl (firstn n (skipn m rows)) rows.
Proof.
  intros x Hx.
  rewrite <- (firstn_skipn m rows). apply in_or_app. right.
  rewrite <- (firstn_skipn n (skipn m rows)). apply in_or_app. now left.
Qed.

Lemma firstn_plus n m rows :
  firstn (n + m) rows = (firstn n rows ++ firstn m (skipn n rows))%list.
Proof.
  revert rows. induction n as [|n IH]; intros rows; [reflexivity|].
  destruct rows as [|r rows]; simpl.
  - now rewrite firstn_nil.
  - now rewrite IH.
Qed.

Lemma offset_limit_pages skip a b rows :
  0 <= skip -> 0 <= a -> 0 <= b ->
  skip + a < bigint_bound -> a + b < bigint_bound ->
  exists first_page second_page,
    offset_limit skip a rows = Return first_page
    /\ offset_limit (skip + a) b rows = Return second_page
    /\ offset_limit skip (a + b) rows = Return (first_page ++ second_page)%list.
Proof.
  intros Hs Ha Hb Hsa Hab.
  rewrite !offset_limit_window by lia.
  eexists. eexists. split; [reflexivity|]. split; [reflexivity|].
  rewrite !Z2Nat.inj_add by lia.
  rewrite firstn_plus, skipn_skipn.
  now rewrite (Nat.add_comm (Z.to_nat a)).
Qed.

Lemma offset_limit_past_end skip limit rows :
  Z.of_nat (List.length rows) <= skip < bigint_bound ->
  0 <= limit < bigint_bound ->
  offset_limit skip limit rows = Return [].
Proof.
  intros Hs Hl. rewrite offset_limit_window by lia.
  rewrite skipn_all2 by lia. now rewrite firstn_nil.
Qed.
End Pages.

Lemma get_tax_guides_page db skip limit premium_only page :
  crud.get_tax_guides db skip limit premium_only = Return page ->
  (List.length page <= Z.to_nat limit)%nat
  /\ incl page (tax_guides db)
  /\ (premium_only = true -> forall g, In g page -> TaxGuide.is_premium g = true).
Proof.
  unfold crud.get_tax_guides. intros H.
  apply offset_limit_inv in H as (_ & _ & ->).
  split; [apply firstn_le_length|]. destruct premium_only.
  - split.
    + intros g Hg. apply window_incl in Hg. now apply filter_In in Hg.
    + intros _ g Hg. apply window_incl in Hg. apply filter_In in Hg as [_ Hg].
      now destruct (TaxGuide.is_premium g).
  - split; [apply window_incl|discriminate].
Qed.

Lemma get_faqs_page db skip limit premium_only page :
  crud.get_faqs db skip limit premium_only = Return page ->
  (List.length page <= Z.to_nat limit)%nat
  /\ incl page (faqs db)
  /\ (premium_only = true -> forall q, In q page -> FAQ.is_premium q = true).
Proof.
  unfold crud.get_faqs. intros H.
  apply offset_limit_inv in H as (_ & _ & ->).
  split; [apply firstn_le_length|]. destruct premium_only.
  - split.
    + intros q Hq. apply window_incl in Hq. now apply filter_In in Hq.
    + intros _ q Hq. apply window_incl in Hq. apply filter_In in Hq as [_ Hq].
      now destruct (FAQ.is_premium q).
  - split; [apply window_incl|discriminate].
Qed.

(** X3.  Paging composes while the offsets and limits stay 64-bit integers:
    for non-negative [skip], [a] and [b] with [skip + a] and [a + b] below
    2^63, the page of [a] rows at [skip] followed by the page of [b] rows at
    [skip + a] is the page of [a + b] rows at [skip], for tax guides and for
    FAQs, with or without the premium filter; a page that starts at or past
    the end of the table is empty, not an error. *)
Theorem list_pages_concatenate db skip a b premium_only :
  0 <= skip -> 0 <= a -> 0 <= b ->
  skip + a < bigint_bound -> a + b < bigint_bound ->
  (exists p1 p2,
     crud.get_tax_guides db skip a premium_only = Return p1
     /\ crud.get_tax_guides db (skip + a) b premium_only = Return p2
     /\ crud.get_tax_guides db skip (a + b) premium_only
        = Return (p1 ++ p2)%list)
  /\ (exists p1 p2,
        crud.get_faqs db skip a premium_only = Return p1
        /\ crud.get_faqs db (skip + a) b premium_only = Return p2
        /\ crud.get_faqs db skip (a + b) premium_only = Return (p1 ++ p2)%list)
  /\ (Z.of_nat (List.length (tax_guides db)) <= skip ->
      crud.get_tax_guides db skip a premium_only = Return [])
  /\ (Z.of_nat (List.length (faqs db)) <= skip ->
      crud.get_faqs db skip a premium_only = Return []).
Proof.
  intros Hs Ha Hb Hsa Hab.
  split; [now apply offset_limit_pages|].
  split; [now apply offset_limit_pages|].
  split; intros H; apply offset_limit_past_end; try lia;
    (split; [|lia]); destruct premium_only; try assumption;
    (eapply Z.le_trans; [|exact H]); apply inj_le, filter_length_le.
Qed.

Lemma list_pages_concatenate_witness :
  0 <= 1 /\ 0 <= 2 /\ 0 <= 3 /\ 1 + 2 < bigint_bound /\ 2 + 3 < bigint_bound
  /\ exists p1 p2,
       crud.get_tax_guides (main.sample_db 0) 1 2 false = Return p1
       /\ crud.get_tax_guides (main.sample_db 0) (1 + 2) 3 false = Return p2
       /\ crud.get_tax_guides (main.sample_db 0) 1 (2 + 3) false
          = Return (p1 ++ p2)%list.
Proof.
  assert (H1 : 0 <= 1) by lia. assert (H2 : 0 <= 2) by lia.
  assert (H3 : 0 <= 3) by lia.
  assert (H4 : 1 + 2 < bigint_bound) by reflexivity.
  assert (H5 : 2 + 3 < bigint_bound) by reflexivity.
  split; [exact H1|]. split; [exact H2|]. split; [exact H3|].
  split; [exact H4|]. split; [exact H5|].
  exact (proj1 (list_pages_concatenate (main.sample_db 0) 1 2 3 false
                  H1 H2 H3 H4 H5)).
Defined.

(** X4.  What the two list endpoints answer.  For [skip] and [limit] from 0
    up to, but not including, 2^63 they return a list of at most [limit]
    rows, all of them rows of the table: for a caller with premium every
    returned row is premium; for a caller without, anonymous or identified,
    the page is cut from the whole table, whatever the rows' premium flags.
    For a negative [skip] or [limit], or one from 2^63 on, both endpoints
    fail with the store's DataError. *)
Theorem list_endpoints_page skip limit db current_user :
  (0 <= skip < bigint_bound -> 0 <= limit < bigint_bound ->
   exists guides questions,
     routers.tax_guides.read_tax_guides skip limit db current_user = Return guides
     /\ routers.faqs.read_faqs skip limit db current_user = Return questions
     /\ (List.length guides <= Z.to_nat limit)%nat
     /\ (List.length questions <= Z.to_nat limit)%nat
     /\ incl guides (tax_guides db)
     /\ incl questions (faqs db)
     /\ (has_premium current_user ->
         (forall g, In g guides -> TaxGuide.is_premium g = true)
         /\ (forall q, In q questions -> FAQ.is_premium q = true))
     /\ (lacks_premium current_user ->
         guides = firstn (Z.to_nat limit) (skipn (Z.to_nat skip) (tax_guides db))
         /\ questions
            = firstn (Z.to_nat limit) (skipn (Z.to_nat skip) (faqs db))))
  /\ (skip < 0 \/ limit < 0 \/ bigint_bound <= skip \/ bigint_bound <= limit ->
      routers.tax_guides.read_tax_guides skip limit db current_user
      = Raise DataError
      /\ routers.faqs.read_faqs skip limit db current_user = Raise DataError).
Proof.
  split.
  - intros Hs Hl.
    destruct (lacks_or_has_premium current_user) as [Hc|Hc].
    + rewrite (read_tax_guides_unqualified _ _ _ _ Hc),
        (read_faqs_unqualified _ _ _ _ Hc), !offset_limit_window by assumption.
      eexists. eexists. split; [reflexivity|]. split; [reflexivity|].
      split; [apply firstn_le_length|]. split; [apply firstn_le_length|].
      split; [apply window_incl|]. split; [apply window_incl|].
      split; [intros Hh; now apply lacks_not_has_premium in Hc|auto].
    + pose proof (read_tax_guides_qualified skip limit db _ Hc) as Hg.
      pose proof (read_faqs_qualified skip limit db _ Hc) as Hq.
      rewrite offset_limit_window in Hg by assumption.
      rewrite offset_limit_window in Hq by assumption.
      rewrite Hg, Hq.
      eexists. eexists. split; [reflexivity|]. split; [reflexivity|].
      split; [apply firstn_le_length|]. split; [apply firstn_le_length|].
      split; [intros g Hin; apply window_incl in Hin;
              now apply filter_In in Hin|].
      split; [intros q Hin; apply window_incl in Hin;
              now apply filter_In in Hin|].
      split; [|intros Hl'; now apply lacks_not_has_premium in Hl'].
      intros _. split.
      * intros g Hin. apply window_incl in Hin. apply filter_In in Hin as [_ E].
        now destruct (TaxGuide.is_premium g).
      * intros q Hin. apply window_incl in Hin. apply filter_In in Hin as [_ E].
        now destruct (FAQ.is_premium q).
  - intros H.
    unfold routers.tax_guides.read_tax_guides, routers.faqs.read_faqs,
      crud.get_tax_guides, crud.get_faqs.
    split; now apply offset_limit_rejected.
Qed.

Lemma list_endpoints_page_witness :
  0 <= 0 < bigint_bound /\ 0 <= 2 < bigint_bound
  /\ (exists guides questions,
        routers.tax_guides.read_tax_guides 0 2 (main.sample_db 0) None
        = Return guides
        /\ routers.faqs.read_faqs 0 2 (main.sample_db 0) None = Return questions
        /\ (List.length guides <= Z.to_nat 2)%nat
        /\ (List.length questions <= Z.to_nat 2)%nat)
  /\ routers.tax_guides.read_tax_guides bigint_bound 2 (main.sample_db 0) None
     = Raise DataError.
Proof.
  assert (H0 : 0 <= 0 < bigint_bound) by (split; [lia|reflexivity]).
  assert (H2 : 0 <= 2 < bigint_bound) by (split; [lia|reflexivity]).
  split; [exact H0|]. split; [exact H2|].
  destruct (list_endpoints_page 0 2 (main.sample_db 0) None) as [Hpage _].
  destruct (list_endpoints_page bigint_bound 2 (main.sample_db 0) None)
    as [_ Hrejected].
  split.
  - destruct (Hpage H0 H2)
      as (guides & questions & Hg & Hq & Hlg & Hlq & _).
    exists guides, questions. auto.
  - apply Hrejected. right. right. left. apply Z.le_refl.
Defined.

(* ================================================================== *)
(** ** The list and the single fetch, side by side *)

Lemma read_tax_guides_listed skip limit db current_user guides g :
  routers.tax_guides.read_tax_guides skip limit db current_user = Return guides ->
  In g guides -> In g (tax_guides db).
Proof.
  unfold routers.tax_guides.read_tax_guides. intros H Hin.
  apply get_tax_guides_page in H as (_ & Hincl & _). now apply Hincl.
Qed.

(** X5.  On a consistent store, a guide that the list endpoint returned to
    a caller is handed out by the single fetch when it is free or the caller
    has premium, and refused with 403 when it is premium and the caller has
    none: the single fetch gates rows that the list has already shown. *)
Theorem listed_guide_single_fetch skip limit db current_user guides g :
  consistent db ->
  routers.tax_guides.read_tax_guides skip limit db current_user = Return guides ->
  In g guides ->
  (TaxGuide.is_premium g = false \/ has_premium current_user ->
   routers.tax_guides.read_tax_guide (TaxGuide.id g) db current_user = Return g)
  /\ (TaxGuide.is_premium g = true -> lacks_premium current_user ->
      routers.tax_guides.read_tax_guide (TaxGuide.id g) db current_user
      = Raise forbidden).
Proof.
  intros Hdb Hlist Hin.
  pose proof (read_tax_guides_listed _ _ _ _ _ _ Hlist Hin) as Hstored.
  pose proof (get_tax_guide_stored _ _ Hdb Hstored) as Hget.
  split.
  - now apply read_tax_guide_granted.
  - now apply read_tax_guide_denied.
Qed.

Lemma listed_guide_single_fetch_witness :
  consistent (main.sample_db 0)
  /\ routers.tax_guides.read_tax_guides 0 100 (main.sample_db 0) None
     = Return (tax_guides (main.sample_db 0))
  /\ In premium_guide (tax_guides (main.sample_db 0))
  /\ routers.tax_guides.read_tax_guide (TaxGuide.id premium_guide)
       (main.sample_db 0) None
     = Raise forbidden.
Proof.
  pose proof (sample_db_consistent 0) as Hdb.
  assert (Hlist : routers.tax_guides.read_tax_guides 0 100 (main.sample_db 0) None
                  = Return (tax_guides (main.sample_db 0)))
    by (vm_compute; reflexivity).
  assert (Hin : In premium_guide (tax_guides (main.sample_db 0)))
    by (vm_compute; tauto).
  split; [exact Hdb|]. split; [exact Hlist|]. split; [exact Hin|].
  apply (proj2 (listed_guide_single_fetch 0 100 (main.sample_db 0) None
                  (tax_guides (main.sample_db 0)) premium_guide Hdb Hlist Hin)).
  - reflexivity.
  - now left.
Defined.

(* ================================================================== *)
(** ** POST /tax-guides/ and POST /faqs/ *)


(** The two ways [create_tax_guide] can end. *)
Lemma create_tax_guide_outcome guide now db :
  routers.tax_guides.create_tax_guide guide now db
  = if has_nul (schemas.TaxGuideCreate.title guide)
       || has_nul (schemas.TaxGuideCreate.content guide)
    then (Raise ValueError, db)
    else (Return (TaxGuide.mk (tax_guides_id_seq db)
                    (schemas.TaxGuideCreate.title guide)
                    (schemas.TaxGuideCreate.content guide)
                    (schemas.TaxGuideCreate.is_premium guide) now None),
          insert_tax_guide
            (TaxGuide.mk (tax_guides_id_seq db)
               (schemas.TaxGuideCreate.title guide)
               (schemas.TaxGuideCreate.content guide)
               (schemas.TaxGuideCreate.is_premium guide) now None) db).
Proof.
  unfold routers.tax_guides.create_tax_guide, crud.create_tax_guide,
    bind, add_tax_guide, ret.
  now destruct (has_nul _ || has_nul _).
Qed.



Lemma filter_after_insert {A : Type} (p : A -> bool) rows row :
  filter p (rows ++ [row]) = (filter p rows ++ if p row then [row] else [])%list.
Proof. rewrite filter_app. simpl. now destruct (p row). Qed.

(** The two ways [create_faq] can end. *)
Lemma create_faq_outcome faq db :
  routers.faqs.create_faq faq db
  = if has_nul (schemas.FAQCreate.question faq)
       || has_nul (schemas.FAQCreate.answer faq)
       || has_nul (schemas.FAQCreate.category faq)
    then (Raise ValueError, db)
    else (Return (FAQ.mk (faqs_id_seq db) (schemas.FAQCreate.question faq)
                    (schemas.FAQCreate.answer faq)
                    (schemas.FAQCreate.category faq)
                    (schemas.FAQCreate.is_premium faq)),
          insert_faq
            (FAQ.mk (faqs_id_seq db) (schemas.FAQCreate.question faq)
               (schemas.FAQCreate.answer faq) (schemas.FAQCreate.category faq)
               (schemas.FAQCreate.is_premium faq)) db).
Proof.
  unfold routers.faqs.create_faq, crud.create_faq, bind, add_faq, ret.
  now destruct (has_nul _ || has_nul _ || has_nul _).
Qed.



(* ================================================================== *)
(** ** What a write leaves alone *)

(** X8.  A successful registration on a consistent store disturbs nobody
    else: the new user is found under the new id, every user stored before
    is still found unchanged under their id and their email, a lookup by
    any other email answers as before, and the catalogue and consultation
    tables are untouched. *)
Theorem registration_keeps_other_users get_password_hash db user now u db' :
  consistent db ->
  routers.users.create_user get_password_hash user now db = (Return u, db') ->
  crud.get_user db' (User.id u) = Some u
  /\ (forall v,
        In v (users db) ->
        crud.get_user db' (User.id v) = Some v
        /\ crud.get_user_by_email db' (User.email v) = Some v)
  /\ (forall email,
        email <> schemas.UserCreate.email user ->
        crud.get_user_by_email db' email = crud.get_user_by_email db email)
  /\ tax_guides db' = tax_guides db
  /\ consultations db' = consultations db
  /\ faqs db' = faqs db.
Proof.
  intros Hdb Hrun.
  pose proof (create_user_consistent get_password_hash user now db Hdb) as Hdb'.
  unfold exec in Hdb'. rewrite Hrun in Hdb'. simpl in Hdb'.
  destruct (create_user_success get_password_hash db user now u db'
              (or_intror Hrun)) as (Hfresh & Hu & ->).
  split; [apply get_user_stored; [exact Hdb'|]; simpl; apply in_or_app; right;
          now left|].
  split.
  { intros v Hv.
    assert (In v (users (insert_user u db))) by (simpl; apply in_or_app; now left).
    split; [now apply get_user_stored|now apply get_user_by_email_stored]. }
  split; [|repeat split].
  intros email Hemail. unfold crud.get_user_by_email. simpl.
  apply (first_other_key_after_insert String.eqb String.eqb_eq User.email).
  rewrite Hu. simpl. congruence.
Qed.

Lemma registration_keeps_other_users_witness :
  consistent (main.sample_db 0)
  /\ routers.users.create_user fixture_hash alice 1 (main.sample_db 0)
     = (Return alice_row, registered_db)
  /\ crud.get_user registered_db (User.id alice_row) = Some alice_row
  /\ tax_guides registered_db = tax_guides (main.sample_db 0).
Proof.
  pose proof (sample_db_consistent 0) as Hdb.
  assert (Hrun : routers.users.create_user fixture_hash alice 1 (main.sample_db 0)
                 = (Return alice_row, registered_db))
    by (vm_compute; reflexivity).
  destruct (registration_keeps_other_users fixture_hash (main.sample_db 0) alice 1
              alice_row registered_db Hdb Hrun)
    as (Hfound & _ & _ & Hguides & _).
  split; [exact Hdb|]. split; [exact Hrun|]. split; [exact Hfound|exact Hguides].
Defined.

(** X9.  The upgrade touches the caller's premium flag and nothing else.
    On a consistent store holding the caller, it returns; every other
    user's row is still in the table as it was and a lookup by any other
    email answers as before; ids, emails, hashed passwords and active flags
    of all rows are unchanged; so are the other three tables. *)
Theorem upgrade_touches_only_caller db current_user u :
  consistent db ->
  crud.get_user_by_email db (User.email current_user) = Some u ->
  exists u' db',
    routers.users.upgrade_to_premium current_user db = (Return u', db')
    /\ (forall email,
          email <> User.email current_user ->
          crud.get_user_by_email db' email = crud.get_user_by_email db email)
    /\ (forall v, In v (users db) -> User.id v <> User.id u -> In v (users db'))
    /\ map User.id (users db') = map User.id (users db)
    /\ map User.email (users db') = map User.email (users db)
    /\ map User.hashed_password (users db') = map User.hashed_password (users db)
    /\ map User.is_active (users db') = map User.is_active (users db)
    /\ tax_guides db' = tax_guides db
    /\ consultations db' = consultations db
    /\ faqs db' = faqs db.
Proof.
  intros Hdb Hu. unfold routers.users.upgrade_to_premium.
  rewrite (update_user_premium_found _ _ _ _ Hu).
  eexists. eexists. split; [reflexivity|].
  pose proof (get_user_by_email_some _ _ _ Hu) as [Hin Hemail].
  assert (Hcols : forall (C : Type) (col : User.t -> C),
             (forall v, col (User.with_is_premium true v) = col v) ->
             map col (users (update_users_where_id (User.id u)
                               (User.with_is_premium true) db))
             = map col (users db)).
  { intros C col Hcol. simpl. rewrite map_map. apply map_ext. intros v.
    now destruct (User.id v =? User.id u). }
  split.
  { intros email Hother. rewrite get_user_by_email_updated.
    destruct (crud.get_user_by_email db email) as [v|] eqn:Ev; [|reflexivity].
    simpl. destruct (User.id v =? User.id u) eqn:Eid; [|reflexivity].
    apply get_user_by_email_some in Ev as [Hv Hvemail].
    apply Z.eqb_eq in Eid. destruct Hdb as [[Hnd _] _ _ _ _].
    pose proof (keys_determine_row User.id _ v u Hnd Hv Hin Eid) as ->.
    congruence. }
  split.
  { intros v Hv Hid. simpl. apply in_map_iff. exists v. split; [|exact Hv].
    now rewrite (proj2 (Z.eqb_neq _ _) Hid). }
  repeat (split; [now apply Hcols|]). repeat split.
Qed.

Lemma upgrade_touches_only_caller_witness :
  consistent registered_db
  /\ crud.get_user_by_email registered_db (User.email alice_row) = Some alice_row
  /\ exists u' db',
       routers.users.upgrade_to_premium alice_row registered_db = (Return u', db')
       /\ tax_guides db' = tax_guides registered_db.
Proof.
  pose proof registered_db_consistent as Hdb.
  assert (Hu : crud.get_user_by_email registered_db (User.email alice_row)
               = Some alice_row) by (vm_compute; reflexivity).
  destruct (upgrade_touches_only_caller registered_db alice_row alice_row Hdb Hu)
    as (u' & db' & Hrun & _ & _ & _ & _ & _ & _ & Hguides & _).
  split; [exact Hdb|]. split; [exact Hu|].
  exists u', db'. split; [exact Hrun|exact Hguides].
Defined.

(** X10.  The outcomes of creating a consultation.  A subject or message
    with a NUL character fails with the driver's ValueError and nothing is
    written; otherwise a caller whose id no stored user carries fails with
    the foreign key's IntegrityError and no row is added.  For a stored
    caller and clean strings the row is stored as pending under the next id
    with the request's subject and message; the caller's listing becomes
    the old listing followed by the new row, and the listing of every user
    with another id is what it was. *)
Theorem consultation_listing_after_create consultation current_user now db :
  (has_nul (schemas.ConsultationCreate.subject consultation) = true
   \/ has_nul (schemas.ConsultationCreate.message consultation) = true ->
   routers.consultations.create_consultation consultation current_user now db
   = (Raise ValueError, db))
  /\ (has_nul (schemas.ConsultationCreate.subject consultation) = false ->
      has_nul (schemas.ConsultationCreate.message consultation) = false ->
      (forall u, In u (users db) -> User.id u <> User.id current_user) ->
      exists db',
        routers.consultations.create_consultation consultation current_user now db
        = (Raise IntegrityError, db')
        /\ consultations db' = consultations db)
  /\ (has_nul (schemas.ConsultationCreate.subject consultation) = false ->
      has_nul (schemas.ConsultationCreate.message consultation) = false ->
      In current_user (users db) ->
      exists row db',
        routers.consultations.create_consultation consultation current_user now db
        = (Return row, db')
        /\ row = Consultation.mk (consultations_id_seq db) (User.id current_user)
                   (schemas.ConsultationCreate.subject consultation)
                   (schemas.ConsultationCreate.message consultation)
                   "pending" now
        /\ routers.consultations.read_user_consultations db' current_user
           = (routers.consultations.read_user_consultations db current_user
              ++ [row])%list
        /\ forall other,
             User.id other <> User.id current_user ->
             routers.consultations.read_user_consultations db' other
             = routers.consultations.read_user_consultations db other).
Proof.
  rewrite create_consultation_outcome. split; [|split].
  - intros [-> | ->]; [reflexivity|]. now rewrite orb_true_r.
  - intros -> -> Hghost. simpl.
    assert (E : existsb (fun u => User.id u =? User.id current_user) (users db)
                = false).
    { destruct (existsb _ _) eqn:E; [|reflexivity].
      apply existsb_exists in E as (u & Hu & Hid). apply Z.eqb_eq in Hid.
      now apply Hghost in Hu. }
    rewrite E. eexists. split; reflexivity.
  - intros -> -> Hin. simpl. rewrite (stored_user_id_exists _ _ Hin).
    eexists. eexists. split; [reflexivity|]. split; [reflexivity|].
    unfold routers.consultations.read_user_consultations,
      crud.get_user_consultations. simpl.
    split.
    + rewrite filter_after_insert. simpl. now rewrite Z.eqb_refl.
    + intros other Hother. rewrite filter_after_insert. simpl.
      rewrite (proj2 (Z.eqb_neq _ _)) by congruence. apply app_nil_r.
Qed.

Lemma consultation_listing_after_create_witness :
  has_nul "Form 8843" = false
  /\ has_nul "Do I have to file?" = false
  /\ In alice_row (users registered_db)
  /\ exists row db',
       routers.consultations.create_consultation
         (schemas.ConsultationCreate.mk "Form 8843" "Do I have to file?")
         alice_row 2 registered_db
       = (Return row, db')
       /\ routers.consultations.read_user_consultations db' alice_row = [row].
Proof.
  assert (Hs : has_nul "Form 8843" = false) by reflexivity.
  assert (Hm : has_nul "Do I have to file?" = false) by reflexivity.
  assert (Hin : In alice_row (users registered_db)) by (vm_compute; tauto).
  split; [exact Hs|]. split; [exact Hm|]. split; [exact Hin|].
  destruct (proj2 (proj2 (consultation_listing_after_create
                            (schemas.ConsultationCreate.mk "Form 8843"
                               "Do I have to file?")
                            alice_row 2 registered_db)) Hs Hm Hin)
    as (row & db' & Hrun & _ & Hlisting & _).
  exists row, db'. split; [exact Hrun|].
  rewrite Hlisting. reflexivity.
Defined.

(* ================================================================== *)
(** ** The startup seeding *)

Lemma add_tax_guide_clean title content is_premium now db :
  has_nul title || has_nul content = false ->
  add_tax_guide title content is_premium now db
  = (Return (TaxGuide.mk (tax_guides_id_seq db) title content is_premium
               now None),
     insert_tax_guide
       (TaxGuide.mk (tax_guides_id_seq db) title content is_premium now None)
       db).
Proof. intros H. unfold add_tax_guide. now rewrite H. Qed.

Lemma add_faq_clean question answer category is_premium db :
  has_nul question || has_nul answer || has_nul category = false ->
  add_faq question answer category is_premium db
  = (Return (FAQ.mk (faqs_id_seq db) question answer category is_premium),
     insert_faq (FAQ.mk (faqs_id_seq db) question answer category is_premium)
                db).
Proof. intros H. unfold add_faq. now rewrite H. Qed.

Lemma startup_event_seeded now db g guides :
  tax_guides db = g :: guides -> main.startup_event now db = (Return tt, db).
Proof.
  intros H. unfold main.startup_event, bind, query. now rewrite H.
Qed.

Lemma startup_event_unseeded now db :
  tax_guides db = [] ->
  fst (main.startup_event now db) = Return tt
  /\ map TaxGuide.is_premium (tax_guides (exec (main.startup_event now) db))
     = [false; false; false; true]
  /\ map FAQ.is_premium (faqs (exec (main.startup_event now) db))
     = (map FAQ.is_premium (faqs db) ++ [false; false; false; true])%list
  /\ users (exec (main.startup_event now) db) = users db
  /\ consultations (exec (main.startup_event now) db) = consultations db.
Proof.
  intros H.
  unfold exec, main.startup_event, bind, query, ret. rewrite H.
  repeat (rewrite add_tax_guide_clean by (vm_compute; reflexivity);
          cbv beta iota).
  repeat (rewrite add_faq_clean by (vm_compute; reflexivity); cbv beta iota).
  cbn [fst snd tax_guides faqs users consultations
       insert_tax_guide insert_faq]. rewrite H.
  split; [reflexivity|]. split; [reflexivity|].
  split; [|split; reflexivity].
  rewrite <- !app_assoc, map_app. reflexivity.
Qed.

(** X11.  The startup hook seeds at most once and never fails.  If the
    guides table holds any row it changes nothing; if it is empty it adds
    four guides and four FAQs, the last of each premium, whatever the FAQ
    table already holds, and touches neither users nor consultations.
    Running it a second time, at any later clock reading, changes nothing. *)
Theorem startup_event_seeds_once now now' db :
  fst (main.startup_event now db) = Return tt
  /\ (tax_guides db <> [] -> exec (main.startup_event now) db = db)
  /\ (tax_guides db = [] ->
      map TaxGuide.is_premium (tax_guides (exec (main.startup_event now) db))
      = [false; false; false; true]
      /\ map FAQ.is_premium (faqs (exec (main.startup_event now) db))
         = (map FAQ.is_premium (faqs db) ++ [false; false; false; true])%list
      /\ users (exec (main.startup_event now) db) = users db
      /\ consultations (exec (main.startup_event now) db) = consultations db)
  /\ exec (main.startup_event now') (exec (main.startup_event now) db)
     = exec (main.startup_event now) db.
Proof.
  destruct (tax_guides db) as [|g guides] eqn:E.
  - destruct (startup_event_unseeded now db E) as (Hret & Hguides & Hrest).
    split; [exact Hret|]. split; [congruence|]. split; [auto|].
    destruct (tax_guides (exec (main.startup_event now) db)) as [|g guides] eqn:E';
      [discriminate|].
    unfold exec at 1. now rewrite (startup_event_seeded now' _ _ _ E').
  - pose proof (startup_event_seeded now db _ _ E) as Hrun.
    split; [now rewrite Hrun|]. split; [intros _; unfold exec; now rewrite Hrun|].
    split; [discriminate|].
    unfold exec. rewrite Hrun. simpl.
    now rewrite (startup_event_seeded now' db _ _ E).
Qed.

(* ================================================================== *)
(** ** Consultations and their owners *)

Lemma owner_found db user_id :
  In user_id (map User.id (users db)) ->
  exists u, crud.get_user db user_id = Some u /\ User.id u = user_id.
Proof.
  intros Hin. unfold crud.get_user.
  destruct (find (fun u => User.id u =? user_id) (users db)) as [u|] eqn:E.
  - exists u. split; [reflexivity|]. apply find_some in E as [_ E].
    now apply Z.eqb_eq.
  - now apply (first_none_key_absent Z.eqb Z.eqb_eq User.id) in E.
Qed.

Lemma owners_exist_more_users db db' :
  incl (map User.id (users db)) (map User.id (users db')) ->
  consultations db' = consultations db ->
  owners_exist db -> owners_exist db'.
Proof.
  unfold owners_exist. intros Hincl -> H.
  eapply Forall_impl; [|exact H]. intros c Hc. now apply Hincl.
Qed.

(** X12.  Every consultation has an owner in the users table, and this
    survives the writes: if it holds of the store, then [get_user] finds the
    owner of each stored consultation; it still holds after a stored user
    creates a consultation, after any registration attempt and after any
    upgrade attempt. *)
Theorem consultation_owners_exist get_password_hash db :
  owners_exist db ->
  (forall c,
     In c (consultations db) ->
     exists u,
       crud.get_user db (Consultation.user_id c) = Some u
       /\ User.id u = Consultation.user_id c)
  /\ (forall consultation current_user now,
        In current_user (users db) ->
        owners_exist
          (exec (routers.consultations.create_consultation
                   consultation current_user now) db))
  /\ (forall user now,
        owners_exist
          (exec (routers.users.create_user get_password_hash user now) db))
  /\ (forall current_user,
        owners_exist (exec (routers.users.upgrade_to_premium current_user) db)).
Proof.
  intros H. split; [|split; [|split]].
  - intros c Hc. apply owner_found.
    unfold owners_exist in H. rewrite Forall_forall in H. now apply H.
  - intros consultation current_user now Hin.
    unfold exec. rewrite create_consultation_outcome.
    destruct (has_nul _ || has_nul _); simpl; [exact H|].
    rewrite (stored_user_id_exists _ _ Hin). simpl.
    unfold owners_exist. simpl. apply Forall_app. split; [exact H|].
    constructor; [|constructor]. simpl. now apply in_map.
  - intros user now.
    destruct (crud.get_user_by_email db (schemas.UserCreate.email user))
      as [v|] eqn:E; unfold exec.
    + now rewrite (create_user_taken _ _ _ _ _ E).
    + rewrite (create_user_fresh _ _ _ _ E). simpl.
      apply (owners_exist_more_users db); [|reflexivity|exact H].
      simpl. rewrite map_app. intros k Hk. apply in_or_app. now left.
  - intros current_user. unfold routers.users.upgrade_to_premium, exec.
    destruct (crud.get_user_by_email db (User.email current_user))
      as [v|] eqn:E.
    + rewrite (update_user_premium_found _ _ _ _ E). simpl.
      apply (owners_exist_more_users db); [|reflexivity|exact H].
      simpl. intros k Hk. apply in_map_iff in Hk as (r & <- & Hr).
      apply in_map_iff.
      exists (if User.id r =? User.id v
              then User.with_is_premium true r else r).
      split; [now destruct (User.id r =? User.id v)|].
      now apply (in_map (fun u => if User.id u =? User.id v
                                  then User.with_is_premium true u else u)).
    + now rewrite (update_user_premium_missing _ _ _ E).
Qed.

Lemma consultation_owners_exist_witness :
  owners_exist registered_db
  /\ In alice_row (users registered_db)
  /\ owners_exist
       (exec (routers.consultations.create_consultation
                (schemas.ConsultationCreate.mk "Form 8843" "Do I have to file?")
                alice_row 2) registered_db).
Proof.
  assert (H : owners_exist registered_db) by (vm_compute; constructor).
  assert (Hin : In alice_row (users registered_db)) by (vm_compute; tauto).
  split; [exact H|]. split; [exact Hin|].
  exact (proj1 (proj2 (consultation_owners_exist fixture_hash registered_db H))
           (schemas.ConsultationCreate.mk "Form 8843" "Do I have to file?")
           alice_row 2 Hin).
Defined.

(* ================================================================== *)
(** ** Any sequence of requests *)

Section Traces.
Variable get_password_hash : string -> string.

Lemma serve_consistent request db :
  consistent db -> consistent (serve get_password_hash request db).
Proof.
  intros H. destruct request; simpl.
  - now apply create_user_consistent.
  - now apply update_user_premium_consistent.
  - now apply create_tax_guide_consistent.
  - now apply create_faq_consistent.
  - now apply create_consultation_consistent.
  - now apply startup_event_consistent.
Qed.

Lemma startup_event_users now db :
  users (exec (main.startup_event now) db) = users db.
Proof.
  destruct (tax_guides db) as [|g guides] eqn:E.
  - now destruct (startup_event_unseeded now db E) as (_ & _ & _ & Hu & _).
  - unfold exec. now rewrite (startup_event_seeded now db _ _ E).
Qed.

Lemma serve_keeps_user request db u :
  In u (users db) ->
  In u (users (serve get_password_hash request db))
  \/ In (User.with_is_premium true u) (users (serve get_password_hash request db)).
Proof.
  intros Hin. destruct request; simpl.
  - left. unfold exec.
    destruct (crud.get_user_by_email db (schemas.UserCreate.email user))
      as [v|] eqn:E.
    + now rewrite (create_user_taken _ _ _ _ _ E).
    + rewrite (create_user_fresh _ _ _ _ E). simpl. apply in_or_app. now left.
  - unfold routers.users.upgrade_to_premium, exec.
    destruct (crud.get_user_by_email db (User.email current_user))
      as [v|] eqn:E.
    + rewrite (update_user_premium_found _ _ _ _ E). simpl.
      destruct (User.id u =? User.id v) eqn:Eid; [right|left];
        apply in_map_iff; exists u; now rewrite Eid.
    + rewrite (update_user_premium_missing _ _ _ E). now left.
  - left. unfold exec. rewrite create_tax_guide_outcome.
    now destruct (has_nul _ || has_nul _).
  - left. unfold exec. rewrite create_faq_outcome.
    now destruct (has_nul _ || has_nul _ || has_nul _).
  - left. unfold exec. rewrite create_consultation_outcome.
    destruct (has_nul _ || has_nul _); [exact Hin|].
    now destruct (existsb _ _).
  - left. now rewrite startup_event_users.
Qed.

(** X13.  Every store the application can reach is consistent: starting
    from the empty store, after any sequence of write requests, in any
    order and whatever their outcomes, primary keys are distinct and below
    their sequences and no two users share an email. *)
Theorem reachable_stores_consistent requests :
  consistent (serve_all get_password_hash requests empty_db).
Proof.
  unfold serve_all.
  assert (H : forall db, consistent db ->
                         consistent (fold_left
                                       (fun db request =>
                                          serve get_password_hash request db)
                                       requests db)).
  { induction requests as [|request requests IH]; intros db Hdb; simpl.
    - exact Hdb.
    - apply IH. now apply serve_consistent. }
  apply H, empty_db_consistent.
Qed.

(** X14.  Accounts are never deleted, and the only column a request ever
    changes is the premium flag, from whatever it was to [true]: after any
    sequence of write requests a stored user is still stored, either
    unchanged or with [is_premium] set.  In particular a premium user stays
    premium; nothing in the application revokes the flag. *)
Theorem users_only_gain_premium requests db u :
  In u (users db) ->
  (In u (users (serve_all get_password_hash requests db))
   \/ In (User.with_is_premium true u)
         (users (serve_all get_password_hash requests db)))
  /\ (User.is_premium u = true ->
      In u (users (serve_all get_password_hash requests db))).
Proof.
  assert (Hflag : forall v, User.is_premium v = true ->
                            User.with_is_premium true v = v).
  { intros [i e h a p c]. simpl. now intros ->. }
  assert (Hstep : forall rs d v,
             In v (users d) ->
             In v (users (serve_all get_password_hash rs d))
             \/ In (User.with_is_premium true v)
                   (users (serve_all get_password_hash rs d))).
  { unfold serve_all.
    induction rs as [|r rs IH]; intros d v Hv; simpl; [now left|].
    destruct (serve_keeps_user r d v Hv) as [Hk|Hk].
    - now apply IH.
    - destruct (IH _ _ Hk) as [Hl|Hl]; right; [exact Hl|exact Hl]. }
  intros Hin. split; [now apply Hstep|].
  intros Hp. destruct (Hstep requests db u Hin) as [H|H]; [exact H|].
  now rewrite (Hflag u Hp) in H.
Qed.
End Traces.

Lemma users_only_gain_premium_witness :
  In alice_row (users registered_db)
  /\ (In alice_row
         (users (serve_all fixture_hash
                   [PostUsersMePremium alice_row; Startup 5] registered_db))
      \/ In (User.with_is_premium true alice_row)
            (users (serve_all fixture_hash
                      [PostUsersMePremium alice_row; Startup 5] registered_db))).
Proof.
  assert (Hin : In alice_row (users registered_db)) by (vm_compute; tauto).
  split; [exact Hin|].
  exact (proj1 (users_only_gain_premium fixture_hash
                  [PostUsersMePremium alice_row; Startup 5] registered_db
                  alice_row Hin)).
Defined.
